(** * Renesas thermal HAL: the V1.1 and V2.0 services

    A shallow embedding of [Thermal.cpp] of the V2.0 service (namespace
    [android::hardware::thermal::V2_0::renesas]) and of the older V1.1
    service (namespace [V1_1::renesas]), and the properties of their query
    and registration calls.

    - C [float] is IEEE binary32, taken from the Standard Library's
      [SpecFloat] at precision 24 and maximal exponent 128;
    - [uint64_t] is [Z] with the wrap-around written out;
    - sysfs and procfs are a [filesystem] value read by path;
    - a HIDL call is a function to the pair handed to [_hidl_cb], inside
      [outcome] where the C++ can throw or run into undefined behaviour. *)

From Stdlib Require Import ZArith List String Ascii Bool Lia SpecFloat.
Import ListNotations.

Local Open Scope string_scope.
Local Open Scope Z_scope.

(** ** Outcomes *)

(** Why a call does not come back to its caller. *)
Inductive fault : Type :=
  | OutOfRange        (* std::out_of_range from std::stoi / std::stoull *)
  | FilesystemError   (* filesystem_error from directory_iterator *)
  | NullStream        (* fscanf on the null FILE* of a failed fopen *)
  | BufferOverrun     (* fscanf %s past the end of name[TEMP_NAME_LENGTH] *)
  | ScanOverflow.     (* scanf conversion whose result does not fit its object *)

Inductive outcome (A : Type) : Type :=
  | Returned (a : A)
  | Aborted (f : fault).

Arguments Returned {A} a.
Arguments Aborted {A} f.

Definition bind {A B : Type} (m : outcome A) (k : A -> outcome B) : outcome B :=
  match m with
  | Returned a => k a
  | Aborted f => Aborted f
  end.

Notation "x <- m ;; k" := (bind m (fun x => k))
  (at level 61, m at next level, right associativity).

(** ** binary32 *)

Module F32.

Definition prec : Z := 24.
Definition emax : Z := 128.

Definition float : Type := spec_float.

Definition valid (x : float) : bool := valid_binary prec emax x.

(** [x / y], [x == y] and [x >= y] of C on [float]. *)
Definition div (x y : float) : float := SFdiv prec emax x y.
Definition eqb (x y : float) : bool := SFeqb x y.
Definition geb (x y : float) : bool := SFleb y x.

(** Conversion of an integer constant, as in [100] passed for a [float]. *)
Definition of_Z (n : Z) : float := binary_normalize prec emax n 0 false.

Definition NAN : float := S754_nan.
Definition FLT_MAX : float := SFmax_float prec emax.

Definition is_nan (x : float) : bool :=
  match x with S754_nan => true | _ => false end.

End F32.

Abbreviation float := F32.float.

(** [UNKNOWN_TEMPERATURE] of libhardware's [hardware/thermal.h]: [-FLT_MAX]. *)
Definition UNKNOWN_TEMPERATURE : float := SFopp F32.FLT_MAX.

(** ** errno *)

Definition ENOENT : Z := 2.
Definition EIO : Z := 5.

(** Decimal digits of a natural number, most significant first. *)
Fixpoint decimal_fuel (fuel : nat) (n : Z) (acc : string) : string :=
  match fuel with
  | O => acc
  | S fuel' =>
      let acc' := String (ascii_of_nat (48 + Z.to_nat (n mod 10))) acc in
      if n / 10 =? 0 then acc' else decimal_fuel fuel' (n / 10) acc'
  end.

Definition decimal (n : Z) : string :=
  decimal_fuel (S (Z.to_nat (Z.log2 n))) n "".

(** [printf]'s [%d]. *)
Definition show_int (n : Z) : string :=
  if n <? 0 then "-" ++ decimal (- n) else decimal n.

(** [strerror] of the C library (bionic and glibc agree on these): the
    message of a known error number, and ["Unknown error <n>"] for a number
    that is none, which every negative number is.  The table is cut to the
    error numbers this program names. *)
Definition strerror (errnum : Z) : string :=
  if errnum =? ENOENT then "No such file or directory"
  else if errnum =? EIO then "I/O error"
  else "Unknown error " ++ show_int errnum.

(** ** Types of the HIDL interfaces *)

(** [V1_0::ThermalStatusCode] and [V1_0::ThermalStatus] *)
Inductive ThermalStatusCode : Type := SUCCESS | FAILURE.

Record ThermalStatus : Type := mkStatus {
  code : ThermalStatusCode;
  debugMessage : string
}.

(** [V1_0::TemperatureType] *)
Inductive TemperatureType_1_0 : Type :=
  | UNKNOWN_1_0 | CPU_1_0 | GPU_1_0 | BATTERY_1_0 | SKIN_1_0.

(** [V2_0::TemperatureType] *)
Inductive TemperatureType : Type :=
  | UNKNOWN | CPU | GPU | BATTERY | SKIN | USB_PORT | POWER_AMPLIFIER
  | BCL_VOLTAGE | BCL_CURRENT | BCL_PERCENTAGE | NPU.

(** [static_cast<V2_0::TemperatureType>]: the enumerators keep their number. *)
Definition cast_type (t : TemperatureType_1_0) : TemperatureType :=
  match t with
  | UNKNOWN_1_0 => UNKNOWN
  | CPU_1_0 => CPU
  | GPU_1_0 => GPU
  | BATTERY_1_0 => BATTERY
  | SKIN_1_0 => SKIN
  end.

Definition TemperatureType_eqb (a b : TemperatureType) : bool :=
  match a, b with
  | UNKNOWN, UNKNOWN | CPU, CPU | GPU, GPU | BATTERY, BATTERY | SKIN, SKIN
  | USB_PORT, USB_PORT | POWER_AMPLIFIER, POWER_AMPLIFIER
  | BCL_VOLTAGE, BCL_VOLTAGE | BCL_CURRENT, BCL_CURRENT
  | BCL_PERCENTAGE, BCL_PERCENTAGE | NPU, NPU => true
  | _, _ => false
  end.

(** [V2_0::ThrottlingSeverity], in increasing order *)
Inductive ThrottlingSeverity : Type :=
  | NONE | LIGHT | MODERATE | SEVERE | CRITICAL | EMERGENCY | SHUTDOWN.

(** [V1_0::Temperature] *)
Record Temperature_1_0 : Type := mkTemperature_1_0 {
  type_1_0 : TemperatureType_1_0;
  name_1_0 : string;
  currentValue : float;
  throttlingThreshold : float;
  shutdownThreshold : float;
  vrThrottlingThreshold : float
}.

(** [V2_0::Temperature] *)
Record Temperature_2_0 : Type := mkTemperature_2_0 {
  type_2_0 : TemperatureType;
  name_2_0 : string;
  value : float;
  throttlingStatus : ThrottlingSeverity
}.

(** [V2_0::TemperatureThreshold] *)
Record TemperatureThreshold : Type := mkTemperatureThreshold {
  th_type : TemperatureType;
  th_name : string;
  hotThrottlingThresholds : list float;
  coldThrottlingThresholds : list float;
  th_vrThrottlingThreshold : float
}.

(** [V1_0::CpuUsage] *)
Record CpuUsage : Type := mkCpuUsage {
  cpu_name : string;
  active : Z;
  total : Z;
  isOnline : bool
}.

(** [V1_0::CoolingDevice]; neither service ever builds one. *)
Inductive CoolingDevice : Type := .

(** A strong pointer to a remote callback interface: [None] is [nullptr],
    [Some b] the binder object [b]. *)
Definition sp : Type := option nat.

(** [interfacesEqual]: identity of the two binder objects. *)
Definition interfacesEqual (l r : sp) : bool :=
  match l, r with
  | Some a, Some b => Nat.eqb a b
  | None, None => true
  | _, _ => false
  end.

(** [finalizeTemperature], the same in both services *)
Definition finalizeTemperature (temperature : float) : float :=
  if F32.eqb temperature UNKNOWN_TEMPERATURE then F32.NAN else temperature.

(** ** Text *)

(** Text files are taken to hold no NUL character, so that a line or a token
    read from one is the same thing as a C string and as a [std::string]. *)

Definition isspace (c : ascii) : bool :=
  let n := nat_of_ascii c in
  Nat.eqb n 32 || (Nat.leb 9 n && Nat.leb n 13).

Definition isdigit (c : ascii) : bool :=
  let n := nat_of_ascii c in
  Nat.leb 48 n && Nat.leb n 57.

Definition is_newline (c : ascii) : bool := Nat.eqb (nat_of_ascii c) 10.

Definition is_empty (s : string) : bool :=
  match s with EmptyString => true | String _ _ => false end.

(** The longest prefix of [s] whose characters satisfy [p], and what follows. *)
Fixpoint span (p : ascii -> bool) (s : string) : string * string :=
  match s with
  | EmptyString => (EmptyString, EmptyString)
  | String c s' =>
      if p c then let (a, b) := span p s' in (String c a, b)
      else (EmptyString, s)
  end.

Definition skip_space (s : string) : string := snd (span isspace s).

(** Value of a run of decimal digits. *)
Fixpoint digits_value (acc : Z) (s : string) : Z :=
  match s with
  | EmptyString => acc
  | String c s' => digits_value (10 * acc + (Z.of_nat (nat_of_ascii c) - 48)) s'
  end.

(** The subject sequence of [strtol]/[strtoull] in base 10, which the [%d]
    and [%llu] conversions of [scanf] and [operator>>(int&)] share: white
    space is skipped, then an optional sign, then digits, at least one.
    Gives the sign, the magnitude and the rest of the input. *)
Definition scan_integer (s : string) : option (bool * Z * string) :=
  let s1 := skip_space s in
  let '(neg, s2) :=
    match s1 with
    | String "-"%char r => (true, r)
    | String "+"%char r => (false, r)
    | _ => (false, s1)
    end in
  let (ds, rest) := span isdigit s2 in
  if is_empty ds then None else Some (neg, digits_value 0 ds, rest).

(** The [%s] conversion and [operator>>(std::string&)]: white space is
    skipped and the characters up to the next white space are taken. *)
Definition scan_token (s : string) : string :=
  fst (span (fun c => negb (isspace c)) (skip_space s)).

(** [snprintf(buf, size, ...)]: at most [size - 1] characters are stored. *)
Definition snprintf (size : nat) (formatted : string) : string :=
  substring 0 (size - 1) formatted.

Definition INT_MAX : Z := 2147483647.
Definition INT_MIN : Z := -2147483648.
Definition UINT64_MAX : Z := 18446744073709551615.

(** Addition on [uint64_t] *)
Definition add64 (a b : Z) : Z := (a + b) mod 2 ^ 64.

(** ** sysfs and procfs *)

(** What the program can see of the file system: the entry names of a
    directory and the text of a file, [None] when it cannot be opened. *)
Record filesystem : Type := mkFilesystem {
  dir : string -> option (list string);
  file : string -> option string
}.

(** ** The V1.1 service *)

Module V1_1.

Definition MAX_LENGTH : nat := 50.
Definition TEMP_NAME_LENGTH : nat := 15.
Definition CPU_USAGE_FILE : string := "/proc/stat".
Definition TEMPERATURE_DIR : string := "/sys/class/thermal".
Definition THERMAL_DIR : string := "thermal_zone".
Definition THROTTLING_THRESHOLD : Z := 100.
Definition SHUTDOWN_THRESHOLD : Z := 120.

Section Service.

(** The [%f] conversion of the C library on the text of a file: the
    [float] converted, [None] when the text does not start with a number. *)
Variable scan_float : string -> option float.

Variable fsys : filesystem.

(** The [Temperature] built at the end of one round of the [readdir] loop. *)
Definition temperature_of (name : string) (temp : float) : Temperature_1_0 :=
  {| type_1_0 := CPU_1_0;
     name_1_0 := name;
     currentValue := F32.div temp (F32.of_Z 1000);
     throttlingThreshold := finalizeTemperature (F32.of_Z THROTTLING_THRESHOLD);
     shutdownThreshold := finalizeTemperature (F32.of_Z SHUTDOWN_THRESHOLD);
     vrThrottlingThreshold := finalizeTemperature UNKNOWN_TEMPERATURE |}.

(** One round of [while ((de = readdir(dir)))]: [None] is [continue]. *)
Definition read_zone (d_name : string) : outcome (option Temperature_1_0) :=
  if prefix THERMAL_DIR d_name then
    match file fsys (snprintf MAX_LENGTH (TEMPERATURE_DIR ++ "/" ++ d_name ++ "/temp")) with
    | None => Returned None
    | Some temp_text =>
        match scan_float temp_text with
        | None => Returned None
        | Some temp =>
            match file fsys (snprintf MAX_LENGTH (TEMPERATURE_DIR ++ "/" ++ d_name ++ "/type")) with
            | None => Aborted NullStream        (* fscanf(nullptr, ...) *)
            | Some type_text =>
                let name := scan_token type_text in
                if is_empty name then Returned None
                else if Nat.leb TEMP_NAME_LENGTH (String.length name) then Aborted BufferOverrun
                else Returned (Some (temperature_of name temp))
            end
        end
    end
  else Returned None.

Fixpoint read_zones (entries : list string) (temperatures : list Temperature_1_0)
  : outcome (list Temperature_1_0) :=
  match entries with
  | [] => Returned temperatures
  | de :: rest =>
      r <- read_zone de ;;
      match r with
      | None => read_zones rest temperatures
      | Some temperature => read_zones rest (temperatures ++ [temperature])%list
      end
  end.

Definition getTemperatures : outcome (ThermalStatus * list Temperature_1_0) :=
  match dir fsys TEMPERATURE_DIR with
  | None => Returned (mkStatus FAILURE "", [])
  | Some entries =>
      temperatures <- read_zones entries [] ;;
      if Nat.eqb (List.length temperatures) 0
      then Returned (mkStatus FAILURE (strerror (- ENOENT)), temperatures)
      else Returned (mkStatus SUCCESS "", temperatures)
  end.

(** [getline]: the lines of a text, each with its newline when it has one. *)
Fixpoint getlines (s : string) : list string :=
  match s with
  | EmptyString => []
  | String c s' =>
      if is_newline c then String c EmptyString :: getlines s'
      else match getlines s' with
           | [] => [String c EmptyString]
           | l :: ls => String c l :: ls
           end
  end.

(** A [%d] conversion into an [int]. *)
Definition scan_d (s : string) : outcome (option (Z * string)) :=
  match scan_integer s with
  | None => Returned None
  | Some (neg, v, rest) =>
      let n := if neg then - v else v in
      if (INT_MIN <=? n) && (n <=? INT_MAX) then Returned (Some (n, rest))
      else Aborted ScanOverflow
  end.

(** A [%llu] conversion ([SCNu64]); a minus sign negates in [uint64_t]. *)
Definition scan_u64 (s : string) : outcome (option (Z * string)) :=
  match scan_integer s with
  | None => Returned None
  | Some (neg, v, rest) =>
      if v <=? UINT64_MAX
      then Returned (Some ((if neg then (- v) mod 2 ^ 64 else v), rest))
      else Aborted ScanOverflow
  end.

(** The [%llu] conversions left of
    [sscanf(line, "cpu%d %llu %llu %llu %llu", ...)], [n] of them: the
    values converted, up to the first conversion that fails. *)
Fixpoint scan_u64s (n : nat) (s : string) : outcome (list Z) :=
  match n with
  | O => Returned []
  | S n' =>
      r <- scan_u64 s ;;
      match r with
      | None => Returned []
      | Some (v, rest) => vs <- scan_u64s n' rest ;; Returned (v :: vs)
      end
  end.

(** [sscanf(line, "cpu%d %llu %llu %llu %llu", &cpu_num, &user, &nice,
    &system, &idle)]: the values converted; [vals] is their number. *)
Definition sscanf_cpu (line : string) : outcome (list Z) :=
  match line with
  | String "c"%char (String "p"%char (String "u"%char r)) =>
      c <- scan_d r ;;
      match c with
      | None => Returned []
      | Some (cpu_num, rest) => vs <- scan_u64s 4 rest ;; Returned (cpu_num :: vs)
      end
  | _ => Returned []
  end.

(** The test that skips the lines which are not ["cpu[0-9]"] lines. *)
Definition is_cpu_line (line : string) : bool :=
  match line with
  | String "c"%char (String "p"%char (String "u"%char (String d _))) => isdigit d
  | _ => false
  end.

(** [snprintf(file_name, MAX_LENGTH, CPU_ONLINE_FILE_FORMAT, cpu_num)] *)
Definition online_file_name (cpu_num : Z) : string :=
  snprintf MAX_LENGTH ("/sys/devices/system/cpu/cpu" ++ show_int cpu_num ++ "/online").

(** What one round of the [getline] loop does. *)
Inductive round : Type :=
  | Skip                                  (* continue *)
  | Push (usage : CpuUsage)               (* cpuUsages.push_back(usage) *)
  | Fail (status : ThermalStatus).        (* _hidl_cb(status, cpuUsages); return *)

Definition read_cpu (line : string) : outcome round :=
  if negb (is_cpu_line line) then Returned Skip
  else
    vals <- sscanf_cpu line ;;
    match vals with
    | [cpu_num; user; nice; system; idle] =>
        let active := add64 (add64 user nice) system in
        let total := add64 active idle in
        let file_name := online_file_name cpu_num in
        let cpu_name := snprintf 5 ("CPU" ++ show_int cpu_num) in
        match file fsys file_name with
        | None =>
            let online := if cpu_num =? 0 then 1 else 0 in
            Returned (Push (mkCpuUsage cpu_name active total (negb (online =? 0))))
        | Some online_text =>
            o <- scan_d online_text ;;
            match o with
            | None => Returned (Fail (mkStatus FAILURE (strerror (- EIO))))
            | Some (online, _) =>
                Returned (Push (mkCpuUsage cpu_name active total (negb (online =? 0))))
            end
        end
    | _ => Returned (Fail (mkStatus FAILURE (strerror (- EIO))))
    end.

Fixpoint read_cpus (lines : list string) (cpuUsages : list CpuUsage)
  : outcome (ThermalStatus * list CpuUsage) :=
  match lines with
  | [] => Returned (mkStatus SUCCESS "", cpuUsages)
  | line :: rest =>
      r <- read_cpu line ;;
      match r with
      | Skip => read_cpus rest cpuUsages
      | Push usage => read_cpus rest (cpuUsages ++ [usage])%list
      | Fail status => Returned (status, cpuUsages)
      end
  end.

Definition getCpuUsages : outcome (ThermalStatus * list CpuUsage) :=
  match file fsys CPU_USAGE_FILE with
  | None => Returned (mkStatus SUCCESS "", [])
  | Some text => read_cpus (getlines text) []
  end.

End Service.

Definition getCoolingDevices : ThermalStatus * list CoolingDevice :=
  (mkStatus SUCCESS "", []).

(** A call of [IThermalCallback::notifyThrottling] on a remote callback. *)
Record notification : Type := mkNotification {
  target : nat;
  isThrottling : bool;
  temperature : Temperature_1_0
}.

(** [registerThermalCallback]: from the value of the static [sThermalCb] to
    its new value and the notifications sent. *)
Definition registerThermalCallback (sThermalCb : sp) (callback : sp)
  : sp * list notification :=
  match callback with
  | None => (sThermalCb, [])
  | Some cb =>
      let temperature :=
        {| type_1_0 := CPU_1_0;
           name_1_0 := "thermal";
           currentValue := finalizeTemperature UNKNOWN_TEMPERATURE;
           throttlingThreshold := finalizeTemperature (F32.of_Z THROTTLING_THRESHOLD);
           shutdownThreshold := finalizeTemperature (F32.of_Z SHUTDOWN_THRESHOLD);
           vrThrottlingThreshold := finalizeTemperature UNKNOWN_TEMPERATURE |} in
      (Some cb, [mkNotification cb false temperature])
  end.

End V1_1.

(** ** [std::ifstream] *)

(** The part of a file stream the V2.0 service depends on: the text of the
    file its buffer has open, if any, and [failbit]. *)
Record ifstream : Type := mkIfstream {
  rdbuf : option string;
  failbit : bool
}.

(** [std::ifstream fs;] *)
Definition ifstream_default : ifstream := mkIfstream None false.

(** [fs.open(path)]: [basic_filebuf::open] gives a null pointer when the
    buffer already has a file open, and when the file cannot be opened;
    [basic_ifstream::open] then sets [failbit], and clears the state
    otherwise. *)
Definition ifstream_open (fsys : filesystem) (path : string) (fs : ifstream) : ifstream :=
  match rdbuf fs with
  | Some _ => mkIfstream (rdbuf fs) true
  | None =>
      match file fsys path with
      | Some text => mkIfstream (Some text) false
      | None => mkIfstream None true
      end
  end.

(** [std::ifstream fs(path);] *)
Definition ifstream_ctor (fsys : filesystem) (path : string) : ifstream :=
  ifstream_open fsys path ifstream_default.

(** [fs.close()]: sets [failbit] when no file was open. *)
Definition ifstream_close (fs : ifstream) : ifstream :=
  match rdbuf fs with
  | Some _ => mkIfstream None (failbit fs)
  | None => mkIfstream None true
  end.

(** [fs.fail()] *)
Definition ifstream_fail (fs : ifstream) : bool := failbit fs.

(** The text a formatted input function reads: nothing without a file. *)
Definition ifstream_text (fs : ifstream) : string :=
  match rdbuf fs with Some text => text | None => EmptyString end.

(** ** The V2.0 service *)

Module V2_0.

Definition kCpuUsageFile : string := "/proc/stat".
Definition kTemperaturePath : string := "/sys/class/thermal".
Definition kThermalZone : string := "thermal_zone".
Definition kThrottlingThreshold : float := F32.of_Z 100.
Definition kShutdownThreshold : float := F32.of_Z 120.

(** *** The regular expression [txt_regex] *)

(** The five groups [sm.str(1)] to [sm.str(5)] of a match. *)
Definition groups : Type := (string * string * string * string * string)%type.

(** One group [( [0-9]+)]: a space and the digits after it.  A run of digits
    is followed in [txt_regex] by a space or by the last group, which takes
    any text, so the greedy [+] keeps the longest run. *)
Definition match_field (s : string) : option (string * string) :=
  match s with
  | String " "%char r =>
      let (ds, rest) := span isdigit r in
      if is_empty ds then None else Some (String " "%char ds, rest)
  | _ => None
  end.

(** [txt_regex] at the start of [s]: [cpu([0-9]+)], four times [( [0-9]+)],
    and a last group that takes whatever follows. *)
Definition match_here (s : string) : option groups :=
  match s with
  | String "c"%char (String "p"%char (String "u"%char r)) =>
      let (g1, r1) := span isdigit r in
      if is_empty g1 then None
      else
        match match_field r1 with
        | None => None
        | Some (g2, r2) =>
            match match_field r2 with
            | None => None
            | Some (g3, r3) =>
                match match_field r3 with
                | None => None
                | Some (g4, r4) =>
                    match match_field r4 with
                    | None => None
                    | Some (g5, _) => Some (g1, g2, g3, g4, g5)
                    end
                end
            end
        end
  | _ => None
  end.

(** [std::regex_search(tmp, sm, txt_regex)]: the first position of [tmp] at
    which the expression matches. *)
Fixpoint regex_search (tmp : string) : option groups :=
  match match_here tmp with
  | Some g => Some g
  | None =>
      match tmp with
      | EmptyString => None
      | String _ tmp' => regex_search tmp'
      end
  end.

(** [std::stoi] on a group of the match, which is digits after at most one
    space. *)
Definition stoi (s : string) : outcome Z :=
  let v := digits_value 0 (skip_space s) in
  if v <=? INT_MAX then Returned v else Aborted OutOfRange.

(** [std::stoull], likewise *)
Definition stoull (s : string) : outcome Z :=
  let v := digits_value 0 (skip_space s) in
  if v <=? UINT64_MAX then Returned v else Aborted OutOfRange.

(** *** Formatted input *)

(** The text holds white space only: the sentry of a formatted input
    function skips the white space, meets the end of the file and fails, and
    the function stores nothing. *)
Definition is_blank (text : string) : bool := is_empty (skip_space text).

(** [fs >> x] for an [int]: nothing happens to [x] on a stream that has
    failed, nor on one that ends before anything but white space; otherwise
    [x] is the number read, brought into the range of [int], or zero when
    what is there is no number. *)
Definition extract_int (fs : ifstream) (x : Z) : Z * ifstream :=
  if failbit fs then (x, fs)
  else if is_blank (ifstream_text fs) then (x, mkIfstream (rdbuf fs) true)
  else
    match scan_integer (ifstream_text fs) with
    | None => (0, mkIfstream (rdbuf fs) true)
    | Some (neg, v, _) =>
        let n := if neg then - v else v in
        if n <? INT_MIN then (INT_MIN, mkIfstream (rdbuf fs) true)
        else if INT_MAX <? n then (INT_MAX, mkIfstream (rdbuf fs) true)
        else (n, fs)
    end.

(** [fs >> name] for a [std::string]: [name] is cleared and filled once the
    sentry has passed. *)
Definition extract_string (fs : ifstream) (name : string) : string * ifstream :=
  if failbit fs then (name, fs)
  else if is_blank (ifstream_text fs) then (name, mkIfstream (rdbuf fs) true)
  else (scan_token (ifstream_text fs), fs).

(** [getline(fs, tmp)] until it fails: the lines of a text, without their
    newlines. *)
Fixpoint getlines (s : string) : list string :=
  match s with
  | EmptyString => []
  | String c s' =>
      if is_newline c then EmptyString :: getlines s'
      else match getlines s' with
           | [] => [String c EmptyString]
           | l :: ls => String c l :: ls
           end
  end.

Section Service.

(** [operator>>(float&)] of the C++ library on the text of a file: the
    [float] stored, [None] when the text does not start with a number. *)
Variable scan_float : string -> option float.

Variable fsys : filesystem.

(** [fs >> temp] for a [float]: [temp] is left as it is on a stream that has
    failed or holds white space only, and is zero when what is there is no
    number. *)
Definition extract_float (fs : ifstream) (temp : float) : float * ifstream :=
  if failbit fs then (temp, fs)
  else if is_blank (ifstream_text fs) then (temp, mkIfstream (rdbuf fs) true)
  else
    match scan_float (ifstream_text fs) with
    | Some x => (x, fs)
    | None => (F32.of_Z 0, mkIfstream (rdbuf fs) true)
    end.

(** The [Temperature_1_0] built at the end of one round of the loop of
    [getTemperaturesHelper]. *)
Definition temperature_of (name : string) (temp : float) : Temperature_1_0 :=
  {| type_1_0 := CPU_1_0;
     name_1_0 := name;
     currentValue := F32.div temp (F32.of_Z 1000);
     throttlingThreshold := finalizeTemperature kThrottlingThreshold;
     shutdownThreshold := finalizeTemperature kShutdownThreshold;
     vrThrottlingThreshold := finalizeTemperature UNKNOWN_TEMPERATURE |}.

(** One round of the loop of [getTemperaturesHelper] on the entry named
    [filenameStr]: the new value of [temp], which lives outside the loop,
    and the element pushed, if any. *)
Definition read_zone (filenameStr : string) (temp : float)
  : float * option Temperature_1_0 :=
  if prefix kThermalZone filenameStr then
    let entry_path := kTemperaturePath ++ "/" ++ filenameStr in
    let tempFileName := entry_path ++ "/temp" in
    let fs := ifstream_ctor fsys tempFileName in
    let fs := ifstream_open fsys tempFileName fs in
    if ifstream_fail fs then (temp, None)
    else
      let (temp, fs) := extract_float fs temp in
      let fs := ifstream_close fs in
      let typeFileName := entry_path ++ "/type" in
      let fs := ifstream_open fsys typeFileName fs in
      if ifstream_fail fs then (temp, None)
      else
        let (name, fs) := extract_string fs EmptyString in
        (temp, Some (temperature_of name temp))
  else (temp, None).

Fixpoint read_zones (entries : list string) (temp : float)
  (temperatures : list Temperature_1_0) : list Temperature_1_0 :=
  match entries with
  | [] => temperatures
  | entry :: rest =>
      let (temp, pushed) := read_zone entry temp in
      match pushed with
      | None => read_zones rest temp temperatures
      | Some temperature => read_zones rest temp (temperatures ++ [temperature])%list
      end
  end.

Definition getTemperaturesHelper : outcome (list Temperature_1_0) :=
  match dir fsys kTemperaturePath with
  | None => Aborted FilesystemError
  | Some entries => Returned (read_zones entries (F32.of_Z 0) [])
  end.

Definition getTemperatures : outcome (ThermalStatus * list Temperature_1_0) :=
  temperatures <- getTemperaturesHelper ;;
  if Nat.eqb (List.length temperatures) 0
  then Returned (mkStatus FAILURE (strerror (- ENOENT)), temperatures)
  else Returned (mkStatus SUCCESS "", temperatures).

(** One round of the [getline] loop of [getCpuUsages] on the line [tmp]:
    the new value of [isOnline], which lives outside the loop, and the
    element pushed, if any. *)
Definition read_cpu (tmp : string) (isOnline : Z) : outcome (Z * option CpuUsage) :=
  match regex_search tmp with
  | None => Returned (isOnline, None)
  | Some (g1, g2, g3, g4, g5) =>
      cpuNum <- stoi g1 ;;
      user <- stoull g2 ;;
      nice <- stoull g3 ;;
      system <- stoull g4 ;;
      idle <- stoull g5 ;;
      let active := add64 (add64 user nice) system in
      let total := add64 active idle in
      let cpuName := "CPU" ++ g1 in
      let cpuOnlineFileName := "/sys/devices/system/cpu/cpu" ++ g1 ++ "/online" in
      let cpuOnlineFs := ifstream_ctor fsys cpuOnlineFileName in
      let isOnline :=
        if ifstream_fail cpuOnlineFs then (if cpuNum =? 0 then 1 else 0) else isOnline in
      let (isOnline, cpuOnlineFs) := extract_int cpuOnlineFs isOnline in
      Returned (isOnline, Some (mkCpuUsage cpuName active total (negb (isOnline =? 0))))
  end.

Fixpoint read_cpus (lines : list string) (isOnline : Z) (cpuUsages : list CpuUsage)
  : outcome (list CpuUsage) :=
  match lines with
  | [] => Returned cpuUsages
  | tmp :: rest =>
      r <- read_cpu tmp isOnline ;;
      match r with
      | (isOnline, None) => read_cpus rest isOnline cpuUsages
      | (isOnline, Some usage) => read_cpus rest isOnline (cpuUsages ++ [usage])%list
      end
  end.

Definition getCpuUsages : outcome (ThermalStatus * list CpuUsage) :=
  let fs := ifstream_open fsys kCpuUsageFile ifstream_default in
  if ifstream_fail fs then Returned (mkStatus FAILURE "", [])
  else
    cpuUsages <- read_cpus (getlines (ifstream_text fs)) 0 [] ;;
    Returned (mkStatus SUCCESS "", cpuUsages).

(** The loop of [getCurrentTemperatures] over [temperatures_1_0]. *)
Definition convert (filterType : bool) (type : TemperatureType)
  (temperatures_1_0 : list Temperature_1_0) : list Temperature_2_0 :=
  flat_map
    (fun temp =>
       let type_1_0 := cast_type (type_1_0 temp) in
       if negb filterType || TemperatureType_eqb type type_1_0
       then [{| type_2_0 := type_1_0;
                name_2_0 := name_1_0 temp;
                value := currentValue temp;
                throttlingStatus := NONE |}]
       else [])
    temperatures_1_0.

(** [getCurrentTemperatures] from the line after the call of
    [getTemperaturesHelper]. *)
Definition currentTemperatures (filterType : bool) (type : TemperatureType)
  (temperatures_1_0 : list Temperature_1_0) : ThermalStatus * list Temperature_2_0 :=
  let temperatures :=
    if Nat.eqb (List.length temperatures_1_0) 0 then []
    else convert filterType type temperatures_1_0 in
  if Nat.eqb (List.length temperatures) 0
  then (mkStatus FAILURE (strerror (- ENOENT)), temperatures)
  else (mkStatus SUCCESS "", temperatures).

Definition getCurrentTemperatures (filterType : bool) (type : TemperatureType)
  : outcome (ThermalStatus * list Temperature_2_0) :=
  temperatures_1_0 <- getTemperaturesHelper ;;
  Returned (currentTemperatures filterType type temperatures_1_0).

(** The [TemperatureThreshold] of one thermal zone. *)
Definition threshold_of (name : string) : TemperatureThreshold :=
  {| th_type := CPU;
     th_name := name;
     hotThrottlingThresholds :=
       [F32.NAN; F32.NAN; F32.NAN; kThrottlingThreshold;
        F32.NAN; F32.NAN; kShutdownThreshold];
     coldThrottlingThresholds :=
       [F32.NAN; F32.NAN; F32.NAN; F32.NAN; F32.NAN; F32.NAN; F32.NAN];
     th_vrThrottlingThreshold := F32.NAN |}.

Definition read_threshold (filenameStr : string) : option TemperatureThreshold :=
  if prefix kThermalZone filenameStr then
    let typeFileName := kTemperaturePath ++ "/" ++ filenameStr ++ "/type" in
    let fs := ifstream_open fsys typeFileName ifstream_default in
    if ifstream_fail fs then None
    else
      let (name, fs) := extract_string fs EmptyString in
      Some (threshold_of name)
  else None.

Definition getTemperatureThresholds (filterType : bool) (type : TemperatureType)
  : outcome (ThermalStatus * list TemperatureThreshold) :=
  if filterType && negb (TemperatureType_eqb type CPU)
  then Returned (mkStatus FAILURE "Wrong filter type", [])
  else
    match dir fsys kTemperaturePath with
    | None => Aborted FilesystemError
    | Some entries =>
        Returned (mkStatus SUCCESS "",
                  flat_map (fun e => match read_threshold e with
                                     | Some t => [t]
                                     | None => []
                                     end) entries)
    end.

End Service.

Definition getCoolingDevices : ThermalStatus * list CoolingDevice :=
  (mkStatus FAILURE "No cooling devices", []).

Definition getCurrentCoolingDevices : ThermalStatus * list CoolingDevice :=
  (mkStatus FAILURE "No cooling devices", []).

(** *** The registry of callbacks *)

(** [CallbackSetting] of [Thermal.h] *)
Record CallbackSetting : Type := mkCallbackSetting {
  callback : sp;
  is_filter_type : bool;
  type : TemperatureType
}.

(** The member [callbacks_], a [std::vector<CallbackSetting>]. *)
Definition registry : Type := list CallbackSetting.

Definition registerThermalChangedCallback (callbacks_ : registry)
  (cb : sp) (filterType : bool) (ty : TemperatureType) : ThermalStatus * registry :=
  match cb with
  | None => (mkStatus FAILURE "Invalid nullptr callback", callbacks_)
  | Some _ =>
      if existsb (fun c => interfacesEqual (callback c) cb) callbacks_
      then (mkStatus FAILURE "Same callback interface registered already", callbacks_)
      else (mkStatus SUCCESS "", (callbacks_ ++ [mkCallbackSetting cb filterType ty])%list)
  end.

Definition unregisterThermalChangedCallback (callbacks_ : registry) (cb : sp)
  : ThermalStatus * registry :=
  match cb with
  | None => (mkStatus FAILURE "Invalid nullptr callback", callbacks_)
  | Some _ =>
      let removed := existsb (fun c => interfacesEqual (callback c) cb) callbacks_ in
      let callbacks_ :=
        filter (fun c => negb (interfacesEqual (callback c) cb)) callbacks_ in
      if removed then (mkStatus SUCCESS "", callbacks_)
      else (mkStatus FAILURE "The callback was not registered before", callbacks_)
  end.

End V2_0.

(** ** The classification of the specification *)

Definition severities : list ThrottlingSeverity :=
  [NONE; LIGHT; MODERATE; SEVERE; CRITICAL; EMERGENCY; SHUTDOWN].

(** The severity as the specification words it: the boundaries of the hot
    direction are scanned from the most severe to the least and the first
    one the value meets or exceeds gives the severity, [NONE] when there is
    none.  A comparison with a not-a-number is false, so that an unset
    boundary is never met and a not-a-number value gives [NONE]. *)
Definition spec_severity (hot : list float) (v : float) : ThrottlingSeverity :=
  match find (fun b => F32.geb v (snd b)) (rev (combine severities hot)) with
  | Some (s, _) => s
  | None => NONE
  end.

(** ** Predicates of the properties *)

(** No field of a [Temperature] is equal to the sentinel, and the threshold
    that has no value is a not-a-number. *)
Definition normalized (t : Temperature_1_0) : bool :=
  negb (F32.eqb (currentValue t) UNKNOWN_TEMPERATURE)
  && negb (F32.eqb (throttlingThreshold t) UNKNOWN_TEMPERATURE)
  && negb (F32.eqb (shutdownThreshold t) UNKNOWN_TEMPERATURE)
  && negb (F32.eqb (vrThrottlingThreshold t) UNKNOWN_TEMPERATURE)
  && F32.is_nan (vrThrottlingThreshold t).

(** The line [tmp] of the counters file makes neither [std::stoi] nor
    [std::stoull] throw. *)
Definition in_range (tmp : string) : bool :=
  match V2_0.regex_search tmp with
  | None => true
  | Some (g1, g2, g3, g4, g5) =>
      (digits_value 0 (skip_space g1) <=? INT_MAX)
      && (digits_value 0 (skip_space g2) <=? UINT64_MAX)
      && (digits_value 0 (skip_space g3) <=? UINT64_MAX)
      && (digits_value 0 (skip_space g4) <=? UINT64_MAX)
      && (digits_value 0 (skip_space g5) <=? UINT64_MAX)
  end.

(** The four tick counts of the line [tmp] add up without a carry out of
    64 bits. *)
Definition ticks_fit (tmp : string) : bool :=
  match V2_0.regex_search tmp with
  | None => true
  | Some (_, g2, g3, g4, g5) =>
      digits_value 0 (skip_space g2) + digits_value 0 (skip_space g3)
      + digits_value 0 (skip_space g4) + digits_value 0 (skip_space g5) <? 2 ^ 64
  end.

(** The same for the V1.1 service, on what [sscanf] converts. *)
Definition ticks_fit_1_1 (line : string) : bool :=
  match V1_1.sscanf_cpu line with
  | Returned [_; user; nice; system; idle] => user + nice + system + idle <? 2 ^ 64
  | _ => true
  end.


(** The file system [fsys] with the text of the file [path] replaced. *)
Definition with_file (path text : string) (fsys : filesystem) : filesystem :=
  mkFilesystem (dir fsys)
    (fun p => if String.eqb p path then Some text else file fsys p).

(** The states of [callbacks_] the service can be in: it starts empty and
    changes by the two registration calls only. *)
Inductive reachable : V2_0.registry -> Prop :=
  | reachable_init : reachable []
  | reachable_register callbacks_ cb filterType ty :
      reachable callbacks_ ->
      reachable (snd (V2_0.registerThermalChangedCallback callbacks_ cb filterType ty))
  | reachable_unregister callbacks_ cb :
      reachable callbacks_ ->
      reachable (snd (V2_0.unregisterThermalChangedCallback callbacks_ cb)).

(** The registrations of [callbacks_] for the callback [cb]. *)
Definition registrations (cb : sp) (callbacks_ : V2_0.registry) : V2_0.registry :=
  filter (fun c => interfacesEqual (V2_0.callback c) cb) callbacks_.

(** A sequence of [registerThermalCallback] calls on the V1.1 service. *)
Fixpoint registerThermalCallbacks (sThermalCb : sp) (calls : list sp)
  : sp * list V1_1.notification :=
  match calls with
  | [] => (sThermalCb, [])
  | callback :: rest =>
      let (s1, n1) := V1_1.registerThermalCallback sThermalCb callback in
      let (s2, n2) := registerThermalCallbacks s1 rest in
      (s2, (n1 ++ n2)%list)
  end.

(** The last callback of [calls] that is not null, [s] when there is none. *)
Fixpoint last_registered (s : sp) (calls : list sp) : sp :=
  match calls with
  | [] => s
  | None :: rest => last_registered s rest
  | Some cb :: rest => last_registered (Some cb) rest
  end.

(** ** File systems of the examples *)

(** A conversion for the texts sysfs really holds, a decimal integer: the
    [float] nearest to it, kept when it is a binary32 value, which rounding
    never fails to give. *)
Definition scan_decimal (s : string) : option float :=
  match scan_integer s with
  | None => None
  | Some (neg, v, _) =>
      let x := F32.of_Z (if neg then - v else v) in
      if F32.valid x then Some x else None
  end.

Definition newline : string := String (ascii_of_nat 10) EmptyString.

(** Files given by a table of paths and texts. *)
Fixpoint lookup (table : list (string * string)) (path : string) : option string :=
  match table with
  | [] => None
  | (p, text) :: rest => if String.eqb p path then Some text else lookup rest path
  end.

(** No thermal zone and no counters file. *)
Definition fs_empty : filesystem :=
  mkFilesystem
    (fun d => if String.eqb d "/sys/class/thermal" then Some ["."; ".."] else None)
    (fun _ => None).

(** One thermal zone at 100 degrees. *)
Definition fs_zone : filesystem :=
  mkFilesystem
    (fun d => if String.eqb d "/sys/class/thermal"
              then Some ["."; ".."; "cooling_device0"; "thermal_zone0"] else None)
    (lookup [("/sys/class/thermal/thermal_zone0/temp", "100000" ++ newline);
             ("/sys/class/thermal/thermal_zone0/type", "cpu-thermal" ++ newline)]).

(** One thermal zone whose [type] file is missing. *)
Definition fs_zone_no_type : filesystem :=
  mkFilesystem
    (fun d => if String.eqb d "/sys/class/thermal" then Some ["thermal_zone0"] else None)
    (lookup [("/sys/class/thermal/thermal_zone0/temp", "45000" ++ newline)]).

(** A counters file with two cores, the second one off line. *)
Definition fs_stat : filesystem :=
  mkFilesystem (fun _ => None)
    (lookup [("/proc/stat",
              "cpu  30 4 20 600 0 0 0" ++ newline ++
              "cpu0 10 1 5 300 0 0 0" ++ newline ++
              "cpu1 20 3 15 300 0 0 0" ++ newline ++
              "intr 12345" ++ newline);
             ("/sys/devices/system/cpu/cpu1/online", "0" ++ newline)]).


(** A counters file whose tick counts do not add up in 64 bits. *)
Definition fs_stat_wrap : filesystem :=
  mkFilesystem (fun _ => None)
    (lookup [("/proc/stat", "cpu0 18446744073709551615 0 0 1" ++ newline)]).

(** A counters file with a tick count beyond 64 bits. *)
Definition fs_stat_huge : filesystem :=
  mkFilesystem (fun _ => None)
    (lookup [("/proc/stat", "cpu0 18446744073709551616 0 0 1" ++ newline)]).

(** ** Predicates of the further properties *)

(** The expression [txt_regex] finds a match on the line [tmp]. *)
Definition matches (tmp : string) : bool :=
  match V2_0.regex_search tmp with Some _ => true | None => false end.

(** The name the V2.0 service gives the usage of the line [tmp]. *)
Definition cpu_name_of_line (tmp : string) : string :=
  match V2_0.regex_search tmp with
  | Some (g1, _, _, _, _) => "CPU" ++ g1
  | None => EmptyString
  end.

(** The number written after the three letters of a core name. *)
Definition core_of_name (name : string) : Z :=
  match name with
  | String _ (String _ (String _ r)) => digits_value 0 r
  | _ => 0
  end.

(** A core name of the V2.0 service: [CPU] and a run of digits, at least
    one. *)
Definition is_core_label (name : string) : bool :=
  match name with
  | String "C"%char (String "P"%char (String "U"%char r)) =>
      negb (is_empty r) && is_empty (snd (span isdigit r))
  | _ => false
  end.

(** An entry of the thermal directory for which [getTemperatureThresholds]
    returns a threshold: a thermal zone whose [type] file opens. *)
Definition zone_with_type (fsys : filesystem) (filenameStr : string) : bool :=
  prefix V2_0.kThermalZone filenameStr
  && match file fsys (V2_0.kTemperaturePath ++ "/" ++ filenameStr ++ "/type") with
     | Some _ => true
     | None => false
     end.

(** The name [getTemperatureThresholds] reads for a thermal zone: the first
    word of its [type] file. *)
Definition zone_type_name (fsys : filesystem) (filenameStr : string) : string :=
  match file fsys (V2_0.kTemperaturePath ++ "/" ++ filenameStr ++ "/type") with
  | Some text => scan_token text
  | None => EmptyString
  end.

(** The temperature of a thermal zone as its two files give it: the number
    of the [temp] file divided by a thousand, under the first word of the
    [type] file; none when a file does not open, when the [temp] file
    gives no number and when the [type] file holds no word. *)
Definition zone_reading (scan_float : string -> option float) (fsys : filesystem)
  (d_name : string) : option Temperature_1_0 :=
  if prefix V1_1.THERMAL_DIR d_name then
    match file fsys (snprintf V1_1.MAX_LENGTH
                       (V1_1.TEMPERATURE_DIR ++ "/" ++ d_name ++ "/temp")),
          file fsys (snprintf V1_1.MAX_LENGTH
                       (V1_1.TEMPERATURE_DIR ++ "/" ++ d_name ++ "/type")) with
    | Some temp_text, Some type_text =>
        match scan_float temp_text with
        | Some temp =>
            if is_empty (scan_token type_text) then None
            else Some (mkTemperature_1_0 CPU_1_0 (scan_token type_text)
                         (F32.div temp (F32.of_Z 1000))
                         (F32.of_Z 100) (F32.of_Z 120) F32.NAN)
        | None => None
        end
    | _, _ => None
    end
  else None.

(** The number [sscanf] converts after [cpu] on a line of the counters
    file. *)
Definition core_number (line : string) : Z :=
  match V1_1.sscanf_cpu line with
  | Returned (cpu_num :: _) => cpu_num
  | _ => 0
  end.

(** A core line the V1.1 service turns into a usage: [sscanf] converts
    five numbers that fit their types, and the online file of the core,
    when it opens, holds a number that fits [int]. *)
Definition accepted (fsys : filesystem) (line : string) : bool :=
  match V1_1.sscanf_cpu line with
  | Returned [cpu_num; _; _; _; _] =>
      match file fsys (V1_1.online_file_name cpu_num) with
      | Some online_text =>
          match V1_1.scan_d online_text with
          | Returned (Some _) => true
          | _ => false
          end
      | None => true
      end
  | _ => false
  end.

(** A thermal zone on which the V1.1 service leaves defined behaviour: its
    [temp] file gives a number and its [type] file is missing, or holds a
    word that does not fit [name]. *)
Definition hazard (scan_float : string -> option float) (fsys : filesystem)
  (d_name : string) : bool :=
  prefix V1_1.THERMAL_DIR d_name
  && match file fsys (snprintf V1_1.MAX_LENGTH
                        (V1_1.TEMPERATURE_DIR ++ "/" ++ d_name ++ "/temp")) with
     | Some temp_text =>
         match scan_float temp_text with
         | Some _ =>
             match file fsys (snprintf V1_1.MAX_LENGTH
                                (V1_1.TEMPERATURE_DIR ++ "/" ++ d_name ++ "/type")) with
             | Some type_text =>
                 Nat.leb V1_1.TEMP_NAME_LENGTH (String.length (scan_token type_text))
             | None => true
             end
         | None => false
         end
     | None => false
     end.

(** The online flag of the V2.0 service for the core named [name], after a
    core whose flag was [previous]: without the online file the core
    numbered zero is on line; with a file that holds nothing but white
    space the flag is the previous one; otherwise the core is on line when
    the file starts with a number that is not zero. *)
Definition online_step (fsys : filesystem) (previous : bool) (name : string) : bool :=
  match name with
  | String _ (String _ (String _ g)) =>
      match file fsys ("/sys/devices/system/cpu/cpu" ++ g ++ "/online") with
      | None => digits_value 0 g =? 0
      | Some text =>
          if V2_0.is_blank text then previous
          else
            match scan_integer text with
            | Some (_, v, _) => negb (v =? 0)
            | None => false
            end
      end
  | _ => false
  end.

(** The online flags of the cores named [names], in their order. *)
Fixpoint online_flags (fsys : filesystem) (previous : bool) (names : list string)
  : list bool :=
  match names with
  | [] => []
  | name :: rest =>
      let flag := online_step fsys previous name in
      flag :: online_flags fsys flag rest
  end.

(** The notifications a sequence of [registerThermalCallback] calls sends:
    one for each callback that is not null, with the temperature whose
    value is unknown. *)
Definition notices (calls : list sp) : list V1_1.notification :=
  flat_map
    (fun callback =>
       match callback with
       | Some cb =>
           [V1_1.mkNotification cb false
              (mkTemperature_1_0 CPU_1_0 "thermal" F32.NAN
                 (F32.of_Z 100) (F32.of_Z 120) F32.NAN)]
       | None => []
       end)
    calls.

(** The usages of two calls one after the other, when both return. *)
Definition append_usages (a b : outcome (ThermalStatus * list CpuUsage))
  : outcome (ThermalStatus * list CpuUsage) :=
  ra <- a ;;
  rb <- b ;;
  Returned (fst rb, (snd ra ++ snd rb)%list).

(** A thermal directory with two zones, the second without a [type] file,
    and a zone whose [type] file is empty. *)
Definition fs_zones : filesystem :=
  mkFilesystem
    (fun d => if String.eqb d "/sys/class/thermal"
              then Some ["thermal_zone0"; "thermal_zone1"; "thermal_zone2"; "cooling_device0"]
              else None)
    (lookup [("/sys/class/thermal/thermal_zone0/temp", "45000" ++ newline);
             ("/sys/class/thermal/thermal_zone0/type", "cpu-thermal" ++ newline);
             ("/sys/class/thermal/thermal_zone1/temp", "46000" ++ newline);
             ("/sys/class/thermal/thermal_zone2/temp", "47000" ++ newline);
             ("/sys/class/thermal/thermal_zone2/type", "")]).

(** A thermal directory with three zones: the first well formed, the
    second without a [temp] file, the third with an empty [type] file. *)
Definition fs_zones_skipped : filesystem :=
  mkFilesystem
    (fun d => if String.eqb d "/sys/class/thermal"
              then Some ["thermal_zone0"; "thermal_zone1"; "thermal_zone2"; "cooling_device0"]
              else None)
    (lookup [("/sys/class/thermal/thermal_zone0/temp", "45000" ++ newline);
             ("/sys/class/thermal/thermal_zone0/type", "cpu-thermal" ++ newline);
             ("/sys/class/thermal/thermal_zone1/type", "gpu-thermal" ++ newline);
             ("/sys/class/thermal/thermal_zone2/temp", "47000" ++ newline);
             ("/sys/class/thermal/thermal_zone2/type", "")]).

(** * Properties *)

(** ** Constants *)

Lemma unknown_temperature_value :
  UNKNOWN_TEMPERATURE = S754_finite true 16777215 104.
Proof. reflexivity. Qed.

Lemma finalize_unknown : finalizeTemperature UNKNOWN_TEMPERATURE = F32.NAN.
Proof. reflexivity. Qed.

Lemma finalize_thresholds :
  finalizeTemperature (F32.of_Z 100) = F32.of_Z 100
  /\ finalizeTemperature (F32.of_Z 120) = F32.of_Z 120.
Proof. split; reflexivity. Qed.

Lemma strerror_negated :
  strerror (- ENOENT) = "Unknown error -2" /\ strerror (- EIO) = "Unknown error -5".
Proof. split; reflexivity. Qed.

(** ** The registry of callbacks of the V2.0 service *)

Lemma interfacesEqual_eq (l r : sp) : interfacesEqual l r = true <-> l = r.
Proof.
  destruct l as [a|], r as [b|]; simpl; split; intro H;
    try discriminate; try reflexivity.
  - apply Nat.eqb_eq in H. now subst.
  - injection H as ->. apply Nat.eqb_refl.
Qed.

Lemma existsb_false_filter {A} (f : A -> bool) (l : list A) :
  existsb f l = false -> filter f l = [].
Proof.
  induction l as [|a l IH]; simpl; intro H; [reflexivity|].
  apply orb_false_iff in H as [Ha Hl]. rewrite Ha. now apply IH.
Qed.

Lemma existsb_false_filter_negb {A} (f : A -> bool) (l : list A) :
  existsb f l = false -> filter (fun a => negb (f a)) l = l.
Proof.
  induction l as [|a l IH]; simpl; intro H; [reflexivity|].
  apply orb_false_iff in H as [Ha Hl]. rewrite Ha. simpl. f_equal. now apply IH.
Qed.

Lemma filter_filter_length {A} (f g : A -> bool) (l : list A) :
  (List.length (filter f (filter g l)) <= List.length (filter f l))%nat.
Proof.
  induction l as [|a l IH]; simpl; [lia|].
  destruct (g a); simpl; destruct (f a); simpl; lia.
Qed.

(** A callback is present when the test of the registration call finds it. *)
Lemma present_existsb (callbacks_ : V2_0.registry) (cb : sp) :
  (exists c, In c callbacks_ /\ V2_0.callback c = cb)
  <-> existsb (fun c => interfacesEqual (V2_0.callback c) cb) callbacks_ = true.
Proof.
  rewrite existsb_exists. split; intros [c [Hin Hc]]; exists c; split; trivial;
    now apply interfacesEqual_eq.
Qed.

Lemma absent_existsb (callbacks_ : V2_0.registry) (cb : sp) :
  (forall c, In c callbacks_ -> V2_0.callback c <> cb)
  -> existsb (fun c => interfacesEqual (V2_0.callback c) cb) callbacks_ = false.
Proof.
  intro H. destruct (existsb _ callbacks_) eqn:E; [|reflexivity].
  apply present_existsb in E as [c [Hin Hc]]. now elim (H c Hin).
Qed.

(** The service never holds two registrations of one callback. *)
Lemma reachable_unique (callbacks_ : V2_0.registry) :
  reachable callbacks_ ->
  forall cb, (List.length (registrations cb callbacks_) <= 1)%nat.
Proof.
  induction 1 as [|s cb ft ty Hs IH|s cb Hs IH]; intro cb'.
  - simpl. lia.
  - unfold V2_0.registerThermalChangedCallback.
    destruct cb as [b|]; [|apply IH].
    destruct (existsb _ s) eqn:E; simpl; [apply IH|].
    unfold registrations. rewrite filter_app, length_app.
    cbn [filter V2_0.callback].
    destruct (interfacesEqual (Some b) cb') eqn:Eb; cbn [List.length].
    + apply interfacesEqual_eq in Eb. subst cb'.
      rewrite (existsb_false_filter _ _ E). simpl. lia.
    + specialize (IH cb'). unfold registrations in IH. lia.
  - unfold V2_0.unregisterThermalChangedCallback.
    destruct cb as [b|]; [|apply IH].
    assert (Hle : (List.length (registrations cb'
                     (filter (fun c => negb (interfacesEqual (V2_0.callback c) (Some b))) s))
                   <= 1)%nat).
    { unfold registrations. etransitivity; [apply filter_filter_length|apply IH]. }
    destruct (existsb _ s); simpl; exact Hle.
Qed.

Lemma present_registrations (callbacks_ : V2_0.registry) (cb : sp) :
  (exists c, In c callbacks_ /\ V2_0.callback c = cb) ->
  (1 <= List.length (registrations cb callbacks_))%nat.
Proof.
  intros [c [Hin Hc]].
  assert (Hf : In c (registrations cb callbacks_)).
  { apply filter_In. split; [exact Hin|now apply interfacesEqual_eq]. }
  destruct (registrations cb callbacks_); [contradiction|simpl; lia].
Qed.

(** C8: in a state the service can reach, registering a callback that is
    present, whatever the filter settings, fails with the message of a
    callback registered already and leaves the registry as it was, with
    exactly one registration of that callback; unregistering a callback that
    is absent fails with the message of a callback not registered and leaves
    the registry, and so its size, unchanged. *)
Theorem registry_conflicts_leave_state
  (callbacks_ : V2_0.registry) (b : nat) (filterType : bool) (ty : TemperatureType)
  (Hreach : reachable callbacks_) :
  ((exists c, In c callbacks_ /\ V2_0.callback c = Some b) ->
   V2_0.registerThermalChangedCallback callbacks_ (Some b) filterType ty
   = (mkStatus FAILURE "Same callback interface registered already", callbacks_)
   /\ List.length (registrations (Some b) callbacks_) = 1%nat)
  /\
  ((forall c, In c callbacks_ -> V2_0.callback c <> Some b) ->
   V2_0.unregisterThermalChangedCallback callbacks_ (Some b)
   = (mkStatus FAILURE "The callback was not registered before", callbacks_)).
Proof.
  split.
  - intro Hp. split.
    + unfold V2_0.registerThermalChangedCallback.
      apply present_existsb in Hp. now rewrite Hp.
    + pose proof (reachable_unique _ Hreach (Some b)).
      pose proof (present_registrations _ _ Hp). lia.
  - intro Ha. unfold V2_0.unregisterThermalChangedCallback.
    pose proof (absent_existsb _ _ Ha) as E. rewrite E.
    now rewrite (existsb_false_filter_negb _ _ E).
Qed.

Lemma registry_conflicts_leave_state_witness :
  let callbacks_ := [V2_0.mkCallbackSetting (Some 7%nat) true CPU] in
  (V2_0.registerThermalChangedCallback callbacks_ (Some 7%nat) false GPU
   = (mkStatus FAILURE "Same callback interface registered already", callbacks_)
   /\ List.length (registrations (Some 7%nat) callbacks_) = 1%nat)
  /\ V2_0.unregisterThermalChangedCallback callbacks_ (Some 8%nat)
     = (mkStatus FAILURE "The callback was not registered before", callbacks_).
Proof.
  intro callbacks_.
  assert (Hreach : reachable callbacks_).
  { exact (reachable_register [] (Some 7%nat) true CPU reachable_init). }
  split.
  - apply (registry_conflicts_leave_state callbacks_ 7%nat false GPU Hreach).
    exists (V2_0.mkCallbackSetting (Some 7%nat) true CPU).
    split; [left; reflexivity|reflexivity].
  - apply (registry_conflicts_leave_state callbacks_ 8%nat false GPU Hreach).
    intros c [<-|[]]. simpl. discriminate.
Defined.

(** ** The callback of the V1.1 service *)

(** The [Temperature] of the notification sent on registration. *)
Lemma registration_temperature (sThermalCb : sp) (cb : nat) :
  V1_1.registerThermalCallback sThermalCb (Some cb)
  = (Some cb,
     [V1_1.mkNotification cb false
        (mkTemperature_1_0 CPU_1_0 "thermal" F32.NAN (F32.of_Z 100) (F32.of_Z 120) F32.NAN)]).
Proof. reflexivity. Qed.

(** C10: the V1.1 service stores one callback: a registration with a
    callback that is not null replaces the stored one, whatever it was, and
    notifies the new one once; a registration with a null callback leaves the
    stored one and sends nothing; after any sequence of registrations the
    stored callback is the last one that was not null. *)
Theorem registerThermalCallback_overwrites (sThermalCb : sp) (cb : nat) (calls : list sp) :
  fst (V1_1.registerThermalCallback sThermalCb (Some cb)) = Some cb
  /\ List.map V1_1.target (snd (V1_1.registerThermalCallback sThermalCb (Some cb))) = [cb]
  /\ V1_1.registerThermalCallback sThermalCb None = (sThermalCb, [])
  /\ fst (registerThermalCallbacks sThermalCb calls) = last_registered sThermalCb calls.
Proof.
  repeat split.
  revert sThermalCb. induction calls as [|c calls IH]; intro s; [reflexivity|].
  simpl. destruct c as [c|]; simpl.
  - specialize (IH (Some c)). destruct (registerThermalCallbacks (Some c) calls). exact IH.
  - specialize (IH s). destruct (registerThermalCallbacks s calls). exact IH.
Qed.

(** ** Cooling devices *)

(** C4, as the code has it: the V2.0 service answers both cooling device
    queries with a failure, the message ["No cooling devices"] and no
    device; the V1.1 service answers with a success, no message and no
    device. *)
Theorem getCoolingDevices_by_version :
  V2_0.getCoolingDevices = (mkStatus FAILURE "No cooling devices", [])
  /\ V2_0.getCurrentCoolingDevices = (mkStatus FAILURE "No cooling devices", [])
  /\ V1_1.getCoolingDevices = (mkStatus SUCCESS "", []).
Proof. repeat split. Qed.

(** C4 as stated fails on the V1.1 service, whose answer is a success. *)
Lemma getCoolingDevices_1_1_succeeds :
  code (fst V1_1.getCoolingDevices) = SUCCESS
  /\ V1_1.getCoolingDevices <> (mkStatus FAILURE "No cooling devices", []).
Proof. split; [reflexivity|discriminate]. Qed.

(** ** Severity of the current temperatures *)

Lemma convert_reports_none (filterType : bool) (type : TemperatureType)
  (temperatures_1_0 : list Temperature_1_0) :
  Forall (fun t => throttlingStatus t = NONE)
    (V2_0.convert filterType type temperatures_1_0).
Proof.
  unfold V2_0.convert.
  induction temperatures_1_0 as [|temp l IH]; simpl; [constructor|].
  apply Forall_app. split; [|exact IH].
  destruct (negb filterType || _); repeat constructor.
Qed.

Lemma currentTemperatures_none (filterType : bool) (type : TemperatureType)
  (temperatures_1_0 : list Temperature_1_0) :
  Forall (fun t => throttlingStatus t = NONE)
    (snd (V2_0.currentTemperatures filterType type temperatures_1_0)).
Proof.
  unfold V2_0.currentTemperatures.
  destruct (Nat.eqb (List.length temperatures_1_0) 0).
  - simpl. constructor.
  - destruct (Nat.eqb _ 0); simpl; apply convert_reports_none.
Qed.

(** The same on the whole call. *)
Lemma getCurrentTemperatures_none (scan_float : string -> option float)
  (fsys : filesystem) (filterType : bool) (type : TemperatureType)
  (status : ThermalStatus) (temperatures : list Temperature_2_0) :
  V2_0.getCurrentTemperatures scan_float fsys filterType type
  = Returned (status, temperatures) ->
  Forall (fun t => throttlingStatus t = NONE) temperatures.
Proof.
  unfold V2_0.getCurrentTemperatures.
  destruct (V2_0.getTemperaturesHelper scan_float fsys) as [l|f]; simpl; [|discriminate].
  intro H. injection H as H.
  pose proof (currentTemperatures_none filterType type l) as Hn.
  rewrite H in Hn. exact Hn.
Qed.

(** Every temperature [getCurrentTemperatures] builds from the temperatures
    of the helper carries the severity [NONE] and the current value of the
    temperature it is built from, whatever that value is; the boundaries are
    never compared with it. *)
Theorem getCurrentTemperatures_reports_none (filterType : bool) (type : TemperatureType)
  (temperatures_1_0 : list Temperature_1_0) :
  Forall (fun t => throttlingStatus t = NONE
                   /\ exists temp, In temp temperatures_1_0 /\ value t = currentValue temp)
    (snd (V2_0.currentTemperatures filterType type temperatures_1_0)).
Proof.
  unfold V2_0.currentTemperatures.
  assert (Hc : Forall (fun t => throttlingStatus t = NONE
                   /\ exists temp, In temp temperatures_1_0 /\ value t = currentValue temp)
                 (V2_0.convert filterType type temperatures_1_0)).
  { unfold V2_0.convert. apply Forall_forall. intros t Ht.
    apply in_flat_map in Ht as [temp [Hin Ht]].
    destruct (negb filterType || _); [|contradiction].
    destruct Ht as [<-|[]]. simpl. split; [reflexivity|]. now exists temp. }
  destruct (Nat.eqb (List.length temperatures_1_0) 0).
  - simpl. constructor.
  - destruct (Nat.eqb _ 0); simpl; exact Hc.
Qed.

(** Were the helper to return a temperature of 100 degrees, which it never
    does, the severity built from it would be [NONE], where the scan of the
    boundaries gives the severity of the boundary at 100, [SEVERE]. *)
Lemma severity_at_threshold_is_none :
  let hot := hotThrottlingThresholds (V2_0.threshold_of "cpu-thermal") in
  let temp := V2_0.temperature_of "cpu-thermal" (F32.of_Z 100000) in
  exists t,
    snd (V2_0.currentTemperatures false CPU [temp]) = [t]
    /\ value t = F32.of_Z 100
    /\ throttlingStatus t = NONE
    /\ spec_severity hot (value t) = SEVERE
    /\ throttlingStatus t <> spec_severity hot (value t).
Proof.
  eexists. repeat split. discriminate.
Qed.

(** The scan of the specification on the values it names. *)
Lemma spec_severity_examples :
  let hot := hotThrottlingThresholds (V2_0.threshold_of "cpu-thermal") in
  spec_severity hot (F32.div (F32.of_Z 99900) (F32.of_Z 1000)) = NONE
  /\ spec_severity hot (F32.of_Z 100) = SEVERE
  /\ spec_severity hot (F32.of_Z 120) = SHUTDOWN
  /\ spec_severity hot F32.NAN = NONE.
Proof. repeat split. Qed.

(** ** Temperatures *)

(** The V2.0 helper opens the stream of the [temp] file twice, by the
    constructor and by [open]; the second call fails on the open stream, or
    on the missing file, so that every zone is passed over. *)
Lemma read_zone_2_0_skips (scan_float : string -> option float) (fsys : filesystem)
  (filenameStr : string) (temp : float) :
  V2_0.read_zone scan_float fsys filenameStr temp = (temp, None).
Proof.
  unfold V2_0.read_zone.
  destruct (prefix V2_0.kThermalZone filenameStr); [|reflexivity].
  unfold ifstream_ctor, ifstream_open. simpl.
  destruct (file fsys _); reflexivity.
Qed.

Lemma read_zones_2_0_empty (scan_float : string -> option float) (fsys : filesystem)
  (entries : list string) (temp : float) (temperatures : list Temperature_1_0) :
  V2_0.read_zones scan_float fsys entries temp temperatures = temperatures.
Proof.
  revert temp temperatures. induction entries as [|e entries IH]; intros; simpl.
  - reflexivity.
  - rewrite read_zone_2_0_skips. apply IH.
Qed.

Lemma getTemperaturesHelper_empty (scan_float : string -> option float) (fsys : filesystem)
  (temperatures : list Temperature_1_0) :
  V2_0.getTemperaturesHelper scan_float fsys = Returned temperatures ->
  temperatures = [].
Proof.
  unfold V2_0.getTemperaturesHelper. destruct (dir fsys _); [|discriminate].
  rewrite read_zones_2_0_empty. congruence.
Qed.

(** *** Severity on the whole call *)





(** The V2.0 service never returns a temperature: a call that comes back
    reports the failure. *)
Lemma getTemperatures_2_0_fails (scan_float : string -> option float) (fsys : filesystem) :
  V2_0.getTemperatures scan_float fsys
  = match dir fsys V2_0.kTemperaturePath with
    | Some _ => Returned (mkStatus FAILURE "Unknown error -2", [])
    | None => Aborted FilesystemError
    end.
Proof.
  unfold V2_0.getTemperatures, V2_0.getTemperaturesHelper.
  destruct (dir fsys _); [|reflexivity].
  rewrite read_zones_2_0_empty. reflexivity.
Qed.

(** The V1.1 service returns at most one temperature an entry. *)
Lemma read_zones_1_1_length (scan_float : string -> option float) (fsys : filesystem)
  (entries : list string) :
  forall temperatures l,
  V1_1.read_zones scan_float fsys entries temperatures = Returned l ->
  (List.length l <= List.length temperatures + List.length entries)%nat.
Proof.
  induction entries as [|de entries IH]; intros temperatures l; cbn [V1_1.read_zones].
  - intro H. injection H as <-. simpl. lia.
  - destruct (V1_1.read_zone scan_float fsys de) as [[t|]|f]; cbn [bind];
      [| |discriminate]; intro H; apply IH in H.
    + rewrite length_app in H. simpl in *. lia.
    + simpl. lia.
Qed.

Lemma getTemperatures_1_1_length (scan_float : string -> option float) (fsys : filesystem)
  (entries : list string) (status : ThermalStatus) (temperatures : list Temperature_1_0) :
  dir fsys V1_1.TEMPERATURE_DIR = Some entries ->
  V1_1.getTemperatures scan_float fsys = Returned (status, temperatures) ->
  (List.length temperatures <= List.length entries)%nat.
Proof.
  intro Hd. unfold V1_1.getTemperatures. rewrite Hd.
  destruct (V1_1.read_zones scan_float fsys entries []) as [l|f] eqn:E; cbn [bind];
    [|discriminate].
  apply read_zones_1_1_length in E. simpl in E.
  destruct (Nat.eqb _ 0); intro H; injection H as _ <-; exact E.
Qed.

(** With no temperature to return both services report a failure whose
    message is [strerror] of the negated error number. *)
Lemma getTemperatures_2_0_no_sample (scan_float : string -> option float)
  (fsys : filesystem) (status : ThermalStatus) :
  V2_0.getTemperatures scan_float fsys = Returned (status, []) ->
  status = mkStatus FAILURE "Unknown error -2".
Proof.
  unfold V2_0.getTemperatures.
  destruct (V2_0.getTemperaturesHelper scan_float fsys) as [l|f]; simpl; [|discriminate].
  destruct l; simpl; intro H; [injection H as <-; reflexivity|discriminate].
Qed.

Lemma getTemperatures_1_1_no_sample (scan_float : string -> option float)
  (fsys : filesystem) (status : ThermalStatus) :
  dir fsys V1_1.TEMPERATURE_DIR <> None ->
  V1_1.getTemperatures scan_float fsys = Returned (status, []) ->
  status = mkStatus FAILURE "Unknown error -2".
Proof.
  unfold V1_1.getTemperatures. intro Hd.
  destruct (dir fsys _) as [entries|]; [|contradiction].
  destruct (V1_1.read_zones scan_float fsys entries []) as [l|f]; simpl; [|discriminate].
  destruct l; simpl; intro H; [injection H as <-; reflexivity|discriminate].
Qed.

(** C3 at a directory without thermal zones: both services return a
    failure and no temperature, and the message is ["Unknown error -2"],
    which [strerror] gives for [-ENOENT], not the message of [ENOENT]. *)
Theorem getTemperatures_empty_directory_message :
  V2_0.getTemperatures scan_decimal fs_empty
  = Returned (mkStatus FAILURE "Unknown error -2", [])
  /\ V1_1.getTemperatures scan_decimal fs_empty
     = Returned (mkStatus FAILURE "Unknown error -2", [])
  /\ strerror (- ENOENT) <> "No such file or directory"
  /\ strerror ENOENT = "No such file or directory".
Proof. repeat split. discriminate. Qed.

(** C7 at a thermal zone whose two files are present and well formed: the
    V2.0 service returns no temperature for it, and a failure, where the
    V1.1 service returns its temperature; and at a zone whose [type] file is
    missing the V1.1 service hands the null stream to [fscanf] instead of
    passing the zone over. *)
Theorem getTemperatures_readable_zone :
  dir fs_zone "/sys/class/thermal"
  = Some ["."; ".."; "cooling_device0"; "thermal_zone0"]
  /\ V2_0.getTemperatures scan_decimal fs_zone
     = Returned (mkStatus FAILURE "Unknown error -2", [])
  /\ V1_1.getTemperatures scan_decimal fs_zone
     = Returned (mkStatus SUCCESS "",
                 [mkTemperature_1_0 CPU_1_0 "cpu-thermal" (F32.of_Z 100)
                    (F32.of_Z 100) (F32.of_Z 120) F32.NAN])
  /\ V1_1.getTemperatures scan_decimal fs_zone_no_type = Aborted NullStream.
Proof. repeat split. Qed.

(** ** Text of the counters file *)

Ltac destruct_ascii c := destruct c as [[] [] [] [] [] [] [] []].

(** Case analysis on a text that a goal or a hypothesis matches against the
    prefix [cpu]: only the texts that start with it are left, with [r] for
    what follows. *)
Ltac cpu_prefix s r :=
  let c1 := fresh "c" in
  let c2 := fresh "c" in
  let c3 := fresh "c" in
  destruct s as [|c1 [|c2 [|c3 r]]]; try discriminate;
  try (destruct_ascii c1; discriminate);
  try (destruct_ascii c1; try discriminate; destruct_ascii c2; discriminate);
  destruct_ascii c1; try discriminate;
  destruct_ascii c2; try discriminate;
  destruct_ascii c3; try discriminate.

Lemma isdigit_not_isspace (c : ascii) : isdigit c = true -> isspace c = false.
Proof.
  unfold isdigit, isspace. intro H.
  apply andb_true_iff in H as [H1 H2].
  apply Nat.leb_le in H1. apply Nat.leb_le in H2.
  apply orb_false_iff. split.
  - apply Nat.eqb_neq. lia.
  - apply andb_false_iff. right. apply Nat.leb_gt. lia.
Qed.

Lemma isdigit_value (c : ascii) :
  isdigit c = true -> 0 <= Z.of_nat (nat_of_ascii c) - 48 <= 9.
Proof.
  unfold isdigit. intro H. apply andb_true_iff in H as [H1 H2].
  apply Nat.leb_le in H1. apply Nat.leb_le in H2. lia.
Qed.

(** A run of digits has a value that is not negative. *)
Lemma span_isdigit_value (s : string) (acc : Z) :
  0 <= acc -> 0 <= digits_value acc (fst (span isdigit s)).
Proof.
  revert acc. induction s as [|c s IH]; intros acc Hacc; cbn [span]; [exact Hacc|].
  destruct (isdigit c) eqn:Hc; [|exact Hacc].
  specialize (IH (10 * acc + (Z.of_nat (nat_of_ascii c) - 48))).
  destruct (span isdigit s) as [a b]. cbn [fst digits_value] in *.
  apply IH. pose proof (isdigit_value c Hc). lia.
Qed.

(** White space is not skipped in front of a run of digits. *)
Lemma skip_space_digits (s : string) :
  skip_space (fst (span isdigit s)) = fst (span isdigit s).
Proof.
  unfold skip_space. destruct s as [|c s]; simpl; [reflexivity|].
  destruct (isdigit c) eqn:Hc; simpl; [|reflexivity].
  destruct (span isdigit s) as [a b]. simpl.
  now rewrite (isdigit_not_isspace c Hc).
Qed.

Lemma match_field_value (s g r : string) :
  V2_0.match_field s = Some (g, r) -> 0 <= digits_value 0 (skip_space g).
Proof.
  unfold V2_0.match_field.
  destruct s as [|c s]; [discriminate|].
  destruct (Ascii.eqb c " "%char) eqn:Hc.
  - apply Ascii.eqb_eq in Hc. subst c.
    pose proof (span_isdigit_value s 0 (Z.le_refl 0)) as Hv.
    pose proof (skip_space_digits s) as Hs.
    destruct (span isdigit s) as [ds rest]. simpl in Hv, Hs.
    destruct (is_empty ds); [discriminate|].
    intro H. injection H as <- _.
    unfold skip_space in *. simpl.
    destruct (span isspace ds) as [a b] eqn:Ea. simpl in *. now subst b.
  - destruct_ascii c; try discriminate.
Qed.

Lemma regex_search_match_here (tmp : string) (g : V2_0.groups) :
  V2_0.regex_search tmp = Some g -> exists s, V2_0.match_here s = Some g.
Proof.
  induction tmp as [|c tmp IH]; cbn [V2_0.regex_search].
  - discriminate.
  - destruct (V2_0.match_here (String c tmp)) eqn:E.
    + intro H. injection H as <-. now exists (String c tmp).
    + exact IH.
Qed.

(** The four tick counts of a match are not negative. *)
Lemma regex_search_values (tmp g1 g2 g3 g4 g5 : string) :
  V2_0.regex_search tmp = Some (g1, g2, g3, g4, g5) ->
  0 <= digits_value 0 (skip_space g2) /\ 0 <= digits_value 0 (skip_space g3)
  /\ 0 <= digits_value 0 (skip_space g4) /\ 0 <= digits_value 0 (skip_space g5).
Proof.
  intro H. apply regex_search_match_here in H as [s H].
  unfold V2_0.match_here in H.
  cpu_prefix s r.
  destruct (span isdigit r) as [d1 r1].
  destruct (is_empty d1); [discriminate|].
  destruct (V2_0.match_field r1) as [[f2 r2]|] eqn:E2; [|discriminate].
  destruct (V2_0.match_field r2) as [[f3 r3]|] eqn:E3; [|discriminate].
  destruct (V2_0.match_field r3) as [[f4 r4]|] eqn:E4; [|discriminate].
  destruct (V2_0.match_field r4) as [[f5 r5]|] eqn:E5; [|discriminate].
  injection H as _ <- <- <- <-.
  repeat split; eapply match_field_value; eassumption.
Qed.

(** ** CPU usages of the V2.0 service *)

Lemma add64_small (a b : Z) : 0 <= a -> 0 <= b -> a + b < 2 ^ 64 -> add64 a b = a + b.
Proof. intros. unfold add64. apply Z.mod_small. lia. Qed.

(** A round of the loop on a line that finds no match pushes nothing and
    leaves [isOnline]. *)
Lemma read_cpu_2_0_unmatched (fsys : filesystem) (tmp : string) (isOnline : Z) :
  V2_0.regex_search tmp = None ->
  V2_0.read_cpu fsys tmp isOnline = Returned (isOnline, None).
Proof. intro H. unfold V2_0.read_cpu. now rewrite H. Qed.

(** A round on a line whose numbers fit returns. *)
Lemma read_cpu_2_0_returns (fsys : filesystem) (tmp : string) (isOnline : Z) :
  in_range tmp = true ->
  exists r, V2_0.read_cpu fsys tmp isOnline = Returned r.
Proof.
  unfold in_range, V2_0.read_cpu.
  destruct (V2_0.regex_search tmp) as [[[[[g1 g2] g3] g4] g5]|]; [|eexists; reflexivity].
  intro H. repeat (apply andb_true_iff in H as [H ?]).
  unfold V2_0.stoi, V2_0.stoull.
  repeat match goal with E : (_ <=? _) = true |- _ => rewrite E; clear E end.
  cbn [bind].
  destruct (V2_0.extract_int _ _). eexists; reflexivity.
Qed.



(** The online files are not the counters file. *)
Lemma read_cpu_2_0_with_file (fsys : filesystem) (text tmp : string) (isOnline : Z) :
  V2_0.read_cpu (with_file V2_0.kCpuUsageFile text fsys) tmp isOnline
  = V2_0.read_cpu fsys tmp isOnline.
Proof.
  unfold V2_0.read_cpu.
  destruct (V2_0.regex_search tmp) as [[[[[g1 g2] g3] g4] g5]|]; reflexivity.
Qed.

Lemma read_cpus_2_0_with_file (fsys : filesystem) (text : string) (lines : list string) :
  forall isOnline cpuUsages,
  V2_0.read_cpus (with_file V2_0.kCpuUsageFile text fsys) lines isOnline cpuUsages
  = V2_0.read_cpus fsys lines isOnline cpuUsages.
Proof.
  induction lines as [|tmp lines IH]; intros isOnline cpuUsages;
    cbn [V2_0.read_cpus]; [reflexivity|].
  rewrite read_cpu_2_0_with_file.
  destruct (V2_0.read_cpu fsys tmp isOnline) as [[o [u|]]|f]; cbn [bind];
    [apply IH|apply IH|reflexivity].
Qed.

Lemma getCpuUsages_2_0_with_file (fsys : filesystem) (text : string) :
  V2_0.getCpuUsages (with_file V2_0.kCpuUsageFile text fsys)
  = (cpuUsages <- V2_0.read_cpus fsys (V2_0.getlines text) 0 [] ;;
     Returned (mkStatus SUCCESS "", cpuUsages)).
Proof.
  unfold V2_0.getCpuUsages, ifstream_open. simpl.
  now rewrite read_cpus_2_0_with_file.
Qed.

(** A round on a line whose tick counts add up in 64 bits pushes a usage
    whose total is at least its active part. *)
Lemma read_cpu_2_0_total (fsys : filesystem) (tmp : string) (isOnline o : Z) (u : CpuUsage) :
  ticks_fit tmp = true ->
  V2_0.read_cpu fsys tmp isOnline = Returned (o, Some u) ->
  active u <= total u.
Proof.
  unfold ticks_fit, V2_0.read_cpu.
  destruct (V2_0.regex_search tmp) as [[[[[g1 g2] g3] g4] g5]|] eqn:E; [|discriminate].
  destruct (regex_search_values _ _ _ _ _ _ E) as (H2 & H3 & H4 & H5).
  intro Hfit. apply Z.ltb_lt in Hfit.
  unfold V2_0.stoi, V2_0.stoull.
  destruct (_ <=? INT_MAX); [|discriminate]. cbn [bind].
  repeat (destruct (_ <=? UINT64_MAX); [|discriminate]; cbn [bind]).
  destruct (V2_0.extract_int _ _). intro H. injection H as _ <-. cbn [active total].
  rewrite (add64_small (digits_value 0 (skip_space g2))) by lia.
  rewrite (add64_small (_ + _) (digits_value 0 (skip_space g4))) by lia.
  rewrite add64_small by lia. lia.
Qed.

Lemma read_cpus_2_0_total (fsys : filesystem) (lines : list string) :
  forallb ticks_fit lines = true ->
  forall isOnline cpuUsages l,
  Forall (fun u => active u <= total u) cpuUsages ->
  V2_0.read_cpus fsys lines isOnline cpuUsages = Returned l ->
  Forall (fun u => active u <= total u) l.
Proof.
  induction lines as [|tmp lines IH]; intros H isOnline cpuUsages l Hacc;
    cbn [V2_0.read_cpus].
  - intro E. injection E as <-. exact Hacc.
  - cbn [forallb] in H. apply andb_true_iff in H as [Ht Hl].
    destruct (V2_0.read_cpu fsys tmp isOnline) as [[o [u|]]|f] eqn:Er; cbn [bind];
      [| |discriminate].
    + apply (IH Hl). apply Forall_app. split; [exact Hacc|].
      constructor; [|constructor]. exact (read_cpu_2_0_total _ _ _ _ _ Ht Er).
    + apply (IH Hl). exact Hacc.
Qed.

(** ** CPU usages of the V1.1 service *)

Lemma scan_integer_value (s rest : string) (neg : bool) (v : Z) :
  scan_integer s = Some (neg, v, rest) -> 0 <= v.
Proof.
  unfold scan_integer.
  destruct (match skip_space s with
            | String "-"%char r => (true, r)
            | String "+"%char r => (false, r)
            | _ => (false, skip_space s)
            end) as [n s2].
  pose proof (span_isdigit_value s2 0 (Z.le_refl 0)) as Hv.
  destruct (span isdigit s2) as [ds r]. cbn [fst] in Hv.
  destruct (is_empty ds); [discriminate|].
  intro H. injection H as _ <- _. exact Hv.
Qed.

Lemma scan_u64_value (s rest : string) (v : Z) :
  V1_1.scan_u64 s = Returned (Some (v, rest)) -> 0 <= v.
Proof.
  unfold V1_1.scan_u64.
  destruct (scan_integer s) as [[[neg v0] r]|] eqn:E; [|discriminate].
  pose proof (scan_integer_value _ _ _ _ E) as Hv.
  destruct (v0 <=? UINT64_MAX); [|discriminate].
  intro H. injection H as <- _.
  destruct neg; [|exact Hv]. apply Z.mod_pos_bound. lia.
Qed.

Lemma scan_u64s_values (n : nat) :
  forall s vs, V1_1.scan_u64s n s = Returned vs -> Forall (fun v => 0 <= v) vs.
Proof.
  induction n as [|n IH]; intros s vs; cbn [V1_1.scan_u64s].
  - intro H. injection H as <-. constructor.
  - destruct (V1_1.scan_u64 s) as [[[v rest]|]|f] eqn:E; cbn [bind]; [| |discriminate].
    + destruct (V1_1.scan_u64s n rest) as [vs'|f] eqn:E'; cbn [bind]; [|discriminate].
      intro H. injection H as <-. constructor.
      * exact (scan_u64_value _ _ _ E).
      * exact (IH _ _ E').
    + intro H. injection H as <-. constructor.
Qed.

Lemma sscanf_cpu_values (line : string) (cpu_num user nice system idle : Z) :
  V1_1.sscanf_cpu line = Returned [cpu_num; user; nice; system; idle] ->
  0 <= user /\ 0 <= nice /\ 0 <= system /\ 0 <= idle.
Proof.
  unfold V1_1.sscanf_cpu.
  cpu_prefix line r.
  destruct (V1_1.scan_d r) as [[[c rest]|]|f]; cbn [bind]; try discriminate.
  destruct (V1_1.scan_u64s 4 rest) as [vs|f] eqn:E; cbn [bind]; [|discriminate].
  intro H. injection H as _ ->.
  apply scan_u64s_values in E.
  inversion E as [|? ? ? E1]; subst. inversion E1 as [|? ? ? E2]; subst.
  inversion E2 as [|? ? ? E3]; subst. inversion E3; subst. auto.
Qed.

(** A round that pushes a usage got five values from [sscanf]. *)
Lemma read_cpu_1_1_push (fsys : filesystem) (line : string) (u : CpuUsage) :
  V1_1.read_cpu fsys line = Returned (V1_1.Push u) ->
  exists cpu_num user nice system idle,
    V1_1.sscanf_cpu line = Returned [cpu_num; user; nice; system; idle]
    /\ active u = add64 (add64 user nice) system
    /\ total u = add64 (active u) idle.
Proof.
  unfold V1_1.read_cpu.
  destruct (negb (V1_1.is_cpu_line line)); [discriminate|].
  destruct (V1_1.sscanf_cpu line) as [vals|f]; cbn [bind]; [|discriminate].
  destruct vals as [|c [|us [|n [|s [|i [|x vals]]]]]]; try discriminate.
  destruct (file fsys _).
  - destruct (V1_1.scan_d _) as [[[o r]|]|f]; cbn [bind]; try discriminate.
    intro H. injection H as <-. now exists c, us, n, s, i.
  - intro H. injection H as <-. now exists c, us, n, s, i.
Qed.

Lemma read_cpu_1_1_total (fsys : filesystem) (line : string) (u : CpuUsage) :
  ticks_fit_1_1 line = true ->
  V1_1.read_cpu fsys line = Returned (V1_1.Push u) ->
  active u <= total u.
Proof.
  intros Hfit Hr.
  destruct (read_cpu_1_1_push _ _ _ Hr) as (c & us & n & s & i & Es & Ha & Ht).
  unfold ticks_fit_1_1 in Hfit. rewrite Es in Hfit. apply Z.ltb_lt in Hfit.
  destruct (sscanf_cpu_values _ _ _ _ _ _ Es) as (H1 & H2 & H3 & H4).
  rewrite Ht, Ha.
  rewrite (add64_small us n) by lia.
  rewrite (add64_small (us + n) s) by lia.
  rewrite add64_small by lia. lia.
Qed.

Lemma read_cpus_1_1_total (fsys : filesystem) (lines : list string) :
  forallb ticks_fit_1_1 lines = true ->
  forall cpuUsages status l,
  Forall (fun u => active u <= total u) cpuUsages ->
  V1_1.read_cpus fsys lines cpuUsages = Returned (status, l) ->
  Forall (fun u => active u <= total u) l.
Proof.
  induction lines as [|line lines IH]; intros H cpuUsages status l Hacc;
    cbn [V1_1.read_cpus].
  - intro E. injection E as _ <-. exact Hacc.
  - cbn [forallb] in H. apply andb_true_iff in H as [Ht Hl].
    destruct (V1_1.read_cpu fsys line) as [[|u|st]|f] eqn:Er; cbn [bind];
      [| | |discriminate].
    + apply (IH Hl). exact Hacc.
    + apply (IH Hl). apply Forall_app. split; [exact Hacc|].
      constructor; [|constructor]. exact (read_cpu_1_1_total _ _ _ Ht Er).
    + intro E. injection E as _ <-. exact Hacc.
Qed.




(** ** Status of the CPU usages *)

Lemma getCpuUsages_2_0_opened (fsys : filesystem) (text : string) :
  file fsys V2_0.kCpuUsageFile = Some text ->
  V2_0.getCpuUsages fsys
  = (cpuUsages <- V2_0.read_cpus fsys (V2_0.getlines text) 0 [] ;;
     Returned (mkStatus SUCCESS "", cpuUsages)).
Proof.
  intro H. unfold V2_0.getCpuUsages, ifstream_open.
  cbn [rdbuf ifstream_default]. rewrite H. reflexivity.
Qed.

Lemma getCpuUsages_2_0_unopened (fsys : filesystem) :
  file fsys V2_0.kCpuUsageFile = None ->
  V2_0.getCpuUsages fsys = Returned (mkStatus FAILURE "", []).
Proof.
  intro H. unfold V2_0.getCpuUsages, ifstream_open.
  cbn [rdbuf ifstream_default]. rewrite H. reflexivity.
Qed.




(** On a counters file it cannot open the V1.1 service leaves the status
    at the success it starts with. *)
Lemma getCpuUsages_1_1_unopened (fsys : filesystem) :
  file fsys V1_1.CPU_USAGE_FILE = None ->
  V1_1.getCpuUsages fsys = Returned (mkStatus SUCCESS "", []).
Proof. intro H. unfold V1_1.getCpuUsages. now rewrite H. Qed.




(** C9, as the code has it: on a counters file whose lines have tick counts
    that add up in 64 bits, every usage returned has a total that is at
    least its active part, in both services. *)
Theorem getCpuUsages_total_ge_active (fsys : filesystem) (text : string)
  (status : ThermalStatus) (cpuUsages : list CpuUsage) :
  (file fsys V2_0.kCpuUsageFile = Some text ->
   forallb ticks_fit (V2_0.getlines text) = true ->
   V2_0.getCpuUsages fsys = Returned (status, cpuUsages) ->
   Forall (fun u => active u <= total u) cpuUsages)
  /\ (file fsys V1_1.CPU_USAGE_FILE = Some text ->
      forallb ticks_fit_1_1 (V1_1.getlines text) = true ->
      V1_1.getCpuUsages fsys = Returned (status, cpuUsages) ->
      Forall (fun u => active u <= total u) cpuUsages).
Proof.
  split.
  - intros H Hfit. rewrite (getCpuUsages_2_0_opened fsys text H).
    destruct (V2_0.read_cpus fsys (V2_0.getlines text) 0 []) as [l|f] eqn:E;
      cbn [bind]; [|discriminate].
    intro Hr. injection Hr as _ <-.
    exact (read_cpus_2_0_total fsys _ Hfit 0 [] l (Forall_nil _) E).
  - intros H Hfit. unfold V1_1.getCpuUsages. rewrite H.
    apply (read_cpus_1_1_total fsys _ Hfit). constructor.
Qed.

Lemma getCpuUsages_total_ge_active_witness :
  Forall (fun u => active u <= total u)
    [mkCpuUsage "CPU0" 16 316 true; mkCpuUsage "CPU1" 38 338 false].
Proof.
  apply (getCpuUsages_total_ge_active fs_stat
           ("cpu  30 4 20 600 0 0 0" ++ newline ++
            "cpu0 10 1 5 300 0 0 0" ++ newline ++
            "cpu1 20 3 15 300 0 0 0" ++ newline ++
            "intr 12345" ++ newline) (mkStatus SUCCESS "")); reflexivity.
Defined.

(** C9 as stated fails: with a first tick count of [2^64 - 1] and an idle
    count of one the total wraps around to zero, below the active part. *)
Lemma getCpuUsages_total_wraps :
  V2_0.getCpuUsages fs_stat_wrap
  = Returned (mkStatus SUCCESS "", [mkCpuUsage "CPU0" 18446744073709551615 0 true])
  /\ V1_1.getCpuUsages fs_stat_wrap
     = Returned (mkStatus SUCCESS "", [mkCpuUsage "CPU0" 18446744073709551615 0 true])
  /\ ~ (active (mkCpuUsage "CPU0" 18446744073709551615 0 true)
        <= total (mkCpuUsage "CPU0" 18446744073709551615 0 true)).
Proof. repeat split. simpl. lia. Qed.

(** ** Rounding to binary32 *)

Lemma digits2_pos_le (p : positive) :
  forall k, 0 <= k -> Zpos p < 2 ^ k -> Zpos (digits2_pos p) <= k.
Proof.
  induction p as [p IH|p IH|]; intros k Hk Hp; cbn [digits2_pos].
  - assert (Hk1 : 1 <= k).
    { destruct (Z.eq_dec k 0) as [->|]; [simpl in Hp; lia|lia]. }
    replace k with (Z.succ (k - 1)) in Hp by lia.
    rewrite Z.pow_succ_r in Hp by lia.
    specialize (IH (k - 1)). lia.
  - assert (Hk1 : 1 <= k).
    { destruct (Z.eq_dec k 0) as [->|]; [simpl in Hp; lia|lia]. }
    replace k with (Z.succ (k - 1)) in Hp by lia.
    rewrite Z.pow_succ_r in Hp by lia.
    specialize (IH (k - 1)). lia.
  - destruct (Z.eq_dec k 0) as [->|]; [simpl in Hp; lia|lia].
Qed.

Lemma digits2_pos_gt (p : positive) : Zpos p < 2 ^ Zpos (digits2_pos p).
Proof.
  induction p as [p IH|p IH|]; cbn [digits2_pos].
  - rewrite Pos2Z.inj_succ, Z.pow_succ_r by lia. lia.
  - rewrite Pos2Z.inj_succ, Z.pow_succ_r by lia. lia.
  - reflexivity.
Qed.

Lemma Zdigits2_le (m k : Z) : 0 <= m -> 0 <= k -> m < 2 ^ k -> Zdigits2 m <= k.
Proof.
  intros Hm Hk Hlt. destruct m as [|p|p]; cbn [Zdigits2]; [lia| |lia].
  now apply digits2_pos_le.
Qed.

Lemma shr_1_half (mrs : shr_record) :
  0 <= shr_m mrs -> 0 <= shr_m (shr_1 mrs) /\ 2 * shr_m (shr_1 mrs) <= shr_m mrs.
Proof.
  destruct mrs as [m r s]. cbn [shr_m]. intro Hm.
  destruct m as [|[p|p|]|p]; cbn [shr_1 shr_m]; lia.
Qed.

Lemma iter_shr_1 (n : positive) :
  forall mrs, 0 <= shr_m mrs ->
  0 <= shr_m (iter_pos shr_1 n mrs)
  /\ 2 ^ Zpos n * shr_m (iter_pos shr_1 n mrs) <= shr_m mrs.
Proof.
  induction n as [n IH|n IH|]; intros mrs Hm; cbn [iter_pos].
  - destruct (shr_1_half mrs Hm) as [H0 H1].
    destruct (IH _ H0) as [H2 H3]. destruct (IH _ H2) as [H4 H5].
    split; [exact H4|].
    replace (Z.pos n~1) with (Z.pos n + Z.pos n + 1) by lia.
    rewrite !Z.pow_add_r by lia.
    replace (2 ^ 1) with 2 by reflexivity.
    assert (Hp : 0 < 2 ^ Zpos n) by (apply Z.pow_pos_nonneg; lia).
    nia.
  - destruct (IH _ Hm) as [H2 H3]. destruct (IH _ H2) as [H4 H5].
    split; [exact H4|].
    replace (Z.pos n~0) with (Z.pos n + Z.pos n) by lia.
    rewrite Z.pow_add_r by lia.
    assert (Hp : 0 < 2 ^ Zpos n) by (apply Z.pow_pos_nonneg; lia).
    nia.
  - destruct (shr_1_half mrs Hm) as [H0 H1]. split; [exact H0|].
    replace (2 ^ 1) with 2 by reflexivity. exact H1.
Qed.

Lemma fexp32 (z : Z) : fexp 24 128 z = Z.max (z - 24) (-149).
Proof. reflexivity. Qed.

(** One shift to the exponent of the format keeps a bound on the value:
    a mantissa below [2 ^ (b - e)] stays below it at the new exponent. *)
Lemma shr_fexp_bound (m e b : Z) (l : location) :
  -125 <= b -> 0 <= m -> e <= b - 24 -> m < 2 ^ (b - e) ->
  let '(mrs, e') := shr_fexp 24 128 m e l in
  0 <= shr_m mrs /\ e' <= b - 24 /\ shr_m mrs < 2 ^ (b - e').
Proof.
  intros Hb Hm He Hlt. unfold shr_fexp.
  assert (Hd : Zdigits2 m <= b - e) by (apply Zdigits2_le; lia).
  assert (Hm0 : shr_m (shr_record_of_loc m l) = m).
  { destruct l as [|[]]; reflexivity. }
  rewrite fexp32.
  destruct (Z.max (Zdigits2 m + e - 24) (-149) - e) as [|n|n] eqn:En; cbn [shr].
  - rewrite Hm0. split; [lia|split; [lia|exact Hlt]].
  - destruct (iter_shr_1 n (shr_record_of_loc m l)) as [H0 H1]; [rewrite Hm0; lia|].
    rewrite Hm0 in H1.
    split; [exact H0|]. split; [lia|].
    assert (Hp : 0 < 2 ^ Zpos n) by (apply Z.pow_pos_nonneg; lia).
    assert (Hs : 2 ^ (b - e) = 2 ^ Zpos n * 2 ^ (b - (e + Zpos n))).
    { rewrite <- Z.pow_add_r by lia. f_equal. lia. }
    rewrite Hs in Hlt. nia.
  - rewrite Hm0. split; [lia|split; [lia|exact Hlt]].
Qed.

Lemma round_nearest_even_bound (m : Z) (l : location) :
  0 <= m -> 0 <= round_nearest_even m l <= m + 1.
Proof.
  intro Hm. unfold round_nearest_even.
  destruct l as [|[]]; try lia. destruct (Z.even m); lia.
Qed.

(** Rounding a value below [2 ^ 119] gives an exponent of at most 96. *)
Lemma binary_round_aux_exponent (sx : bool) (mx ex : Z) (lx : location) :
  0 <= mx -> ex <= 95 -> mx < 2 ^ (119 - ex) ->
  match binary_round_aux 24 128 sx mx ex lx with
  | S754_finite _ _ e => e <= 96
  | _ => True
  end.
Proof.
  intros Hm He Hlt. unfold binary_round_aux.
  pose proof (shr_fexp_bound mx ex 119 lx) as H1.
  destruct (shr_fexp 24 128 mx ex lx) as [mrs1 e1].
  destruct H1 as (H0 & He1 & Hlt1); try lia; try exact Hlt.
  pose proof (round_nearest_even_bound (shr_m mrs1) (loc_of_shr_record mrs1) H0) as Hr.
  set (m2 := round_nearest_even (shr_m mrs1) (loc_of_shr_record mrs1)) in *.
  assert (Hlt2 : m2 < 2 ^ (120 - e1)).
  { replace (120 - e1) with (Z.succ (119 - e1)) by lia.
    rewrite Z.pow_succ_r by lia. lia. }
  pose proof (shr_fexp_bound m2 e1 120 loc_Exact) as H2.
  destruct (shr_fexp 24 128 m2 e1 loc_Exact) as [mrs2 e2].
  destruct H2 as (_ & He2 & _); try lia; try exact Hlt2.
  destruct (shr_m mrs2); trivial.
  destruct (Z.leb e2 (128 - 24)); trivial.
Qed.

(** The quotient of a binary32 value by a thousand, before rounding. *)
Lemma div_core_bound (mx : positive) (ex : Z) :
  bounded 24 128 mx ex = true ->
  let '(q, e', l) := SFdiv_core_binary 24 128 (Zpos mx) ex 16384000 (-14) in
  0 <= q /\ e' <= 95 /\ q < 2 ^ (119 - e').
Proof.
  unfold bounded, canonical_mantissa. intro H.
  apply andb_true_iff in H as [Hc Hb].
  apply Z.eqb_eq in Hc. apply Z.leb_le in Hb. rewrite fexp32 in Hc.
  pose proof (digits2_pos_gt mx) as Hd.
  unfold SFdiv_core_binary. cbn [Zdigits2].
  replace (Z.pos (digits2_pos 16384000)) with 24 by reflexivity.
  rewrite fexp32.
  set (d1 := Z.pos (digits2_pos mx)) in *.
  set (e' := Z.min (Z.max (d1 + ex - (24 + -14) - 24) (-149)) (ex - -14)).
  assert (He' : e' <= 94) by (unfold e'; lia).
  assert (Hs : 0 <= ex - -14 - e') by (unfold e'; lia).
  set (m' := match ex - -14 - e' with
             | 0 => Z.pos mx
             | Z.pos _ => Z.shiftl (Z.pos mx) (ex - -14 - e')
             | Z.neg _ => 0
             end).
  assert (Hm' : m' = Z.pos mx * 2 ^ (ex - -14 - e')).
  { unfold m'. destruct (ex - -14 - e') as [|s|s] eqn:Es.
    - simpl. lia.
    - apply Z.shiftl_mul_pow2. lia.
    - lia. }
  assert (Hq : Z.div_eucl m' 16384000 = (m' / 16384000, m' mod 16384000)).
  { unfold Z.div, Z.modulo. now destruct (Z.div_eucl m' 16384000). }
  rewrite Hq.
  assert (Hp : 0 < 2 ^ (ex - -14 - e')) by (apply Z.pow_pos_nonneg; lia).
  assert (Hm0 : 0 <= m') by (rewrite Hm'; lia).
  split; [apply Z.div_pos; lia|]. split; [lia|].
  apply Z.div_lt_upper_bound; [lia|].
  assert (Hlt : m' < 2 ^ (d1 + (ex - -14 - e'))).
  { rewrite Hm', Z.pow_add_r by (unfold d1; lia). nia. }
  assert (Hle : 2 ^ (d1 + (ex - -14 - e')) <= 2 ^ (23 + (119 - e'))).
  { apply Z.pow_le_mono_r; lia. }
  assert (Hpow : 2 ^ (23 + (119 - e')) = 8388608 * 2 ^ (119 - e')).
  { rewrite Z.pow_add_r by lia. reflexivity. }
  assert (Hp2 : 0 < 2 ^ (119 - e')) by (apply Z.pow_pos_nonneg; lia).
  lia.
Qed.

Lemma eqb_unknown_exponent (s : bool) (m : positive) (e : Z) :
  e <= 96 -> F32.eqb (S754_finite s m e) UNKNOWN_TEMPERATURE = false.
Proof.
  intro He. unfold F32.eqb, SFeqb, UNKNOWN_TEMPERATURE, F32.FLT_MAX, SFmax_float.
  cbn [SFopp negb SFcompare]. 
  destruct s; [|reflexivity].
  replace (F32.emax - F32.prec) with 104 by reflexivity.
  destruct (Z.compare_spec e 104); try lia; reflexivity.
Qed.

(** The quotient of a binary32 value by a thousand is not the sentinel. *)
Lemma div_1000_not_unknown (temp : float) :
  F32.valid temp = true ->
  F32.eqb (F32.div temp (F32.of_Z 1000)) UNKNOWN_TEMPERATURE = false.
Proof.
  intro Hv.
  replace (F32.of_Z 1000) with (S754_finite false 16384000 (-14)) by reflexivity.
  destruct temp as [s|s|  |s mx ex]; try (destruct s; reflexivity); try reflexivity.
  unfold F32.div, SFdiv.
  change F32.prec with 24. change F32.emax with 128.
  pose proof (div_core_bound mx ex Hv) as Hb.
  destruct (SFdiv_core_binary 24 128 (Z.pos mx) ex 16384000 (-14)) as [[q e'] l].
  destruct Hb as (Hq & He & Hlt).
  pose proof (binary_round_aux_exponent (xorb s false) q e' l Hq He Hlt) as Hr.
  destruct (binary_round_aux 24 128 (xorb s false) q e' l) as [s'|s'| |s' m' e2];
    try (destruct s'; reflexivity); try reflexivity.
  now apply eqb_unknown_exponent.
Qed.

(** ** Normalization of the temperatures *)

Lemma temperature_of_1_1_normalized (name : string) (temp : float) :
  F32.valid temp = true -> normalized (V1_1.temperature_of name temp) = true.
Proof.
  intro Hv. unfold normalized, V1_1.temperature_of.
  cbn [currentValue throttlingThreshold shutdownThreshold vrThrottlingThreshold].
  rewrite (div_1000_not_unknown temp Hv). reflexivity.
Qed.

Lemma temperature_of_2_0_normalized (name : string) (temp : float) :
  F32.valid temp = true -> normalized (V2_0.temperature_of name temp) = true.
Proof.
  intro Hv. unfold normalized, V2_0.temperature_of.
  cbn [currentValue throttlingThreshold shutdownThreshold vrThrottlingThreshold].
  rewrite (div_1000_not_unknown temp Hv). reflexivity.
Qed.

Lemma scan_decimal_valid (s : string) (x : float) :
  scan_decimal s = Some x -> F32.valid x = true.
Proof.
  unfold scan_decimal.
  destruct (scan_integer s) as [[[neg v] rest]|]; [|discriminate].
  destruct (F32.valid (F32.of_Z (if neg then - v else v))) eqn:E; [|discriminate].
  intro H. injection H as <-. exact E.
Qed.

Section Normalization.

Variable scan_float : string -> option float.

(** The conversion gives binary32 values. *)
Hypothesis scan_float_valid :
  forall s x, scan_float s = Some x -> F32.valid x = true.

Variable fsys : filesystem.

Lemma read_zone_1_1_normalized (d_name : string) (t : Temperature_1_0) :
  V1_1.read_zone scan_float fsys d_name = Returned (Some t) ->
  normalized t = true.
Proof.
  unfold V1_1.read_zone.
  destruct (prefix _ d_name); [|discriminate].
  destruct (file fsys _); [|discriminate].
  destruct (scan_float _) as [temp|] eqn:Et; [|discriminate].
  destruct (file fsys _); [|discriminate].
  destruct (is_empty _); [discriminate|].
  destruct (Nat.leb _ _); [discriminate|].
  intro H. injection H as <-.
  apply temperature_of_1_1_normalized. exact (scan_float_valid _ _ Et).
Qed.

Lemma read_zones_1_1_normalized (entries : list string) :
  forall temperatures l,
  Forall (fun t => normalized t = true) temperatures ->
  V1_1.read_zones scan_float fsys entries temperatures = Returned l ->
  Forall (fun t => normalized t = true) l.
Proof.
  induction entries as [|de entries IH]; intros temperatures l Hacc;
    cbn [V1_1.read_zones].
  - intro H. injection H as <-. exact Hacc.
  - destruct (V1_1.read_zone scan_float fsys de) as [[t|]|f] eqn:Er; cbn [bind];
      [| |discriminate].
    + apply IH. apply Forall_app. split; [exact Hacc|].
      constructor; [|constructor]. exact (read_zone_1_1_normalized _ _ Er).
    + apply IH. exact Hacc.
Qed.

(** C2: no field of a temperature returned by [getTemperatures] is equal to
    the sentinel [UNKNOWN_TEMPERATURE], and the threshold whose value is the
    sentinel, the one of virtual reality, is returned as a not-a-number; in
    both services, and for every temperature the V2.0 helper can build. *)
Theorem getTemperatures_normalized (status : ThermalStatus)
  (temperatures : list Temperature_1_0) :
  (V1_1.getTemperatures scan_float fsys = Returned (status, temperatures) ->
   Forall (fun t => normalized t = true) temperatures)
  /\ (V2_0.getTemperatures scan_float fsys = Returned (status, temperatures) ->
      Forall (fun t => normalized t = true) temperatures)
  /\ (forall name text temp,
        scan_float text = Some temp ->
        normalized (V2_0.temperature_of name temp) = true).
Proof.
  split; [|split].
  - unfold V1_1.getTemperatures.
    destruct (dir fsys _) as [entries|].
    + destruct (V1_1.read_zones scan_float fsys entries []) as [l|f] eqn:E; cbn [bind];
        [|discriminate].
      pose proof (read_zones_1_1_normalized entries [] l (Forall_nil _) E) as Hl.
      destruct (Nat.eqb _ 0); intro H; injection H as _ <-; exact Hl.
    + intro H. injection H as _ <-. constructor.
  - unfold V2_0.getTemperatures.
    destruct (V2_0.getTemperaturesHelper scan_float fsys) as [l|f] eqn:E; cbn [bind];
      [|discriminate].
    apply getTemperaturesHelper_empty in E. subst l. cbn [List.length Nat.eqb].
    intro H. injection H as _ <-. constructor.
  - intros name text temp Ht. apply temperature_of_2_0_normalized.
    exact (scan_float_valid _ _ Ht).
Qed.

End Normalization.

Lemma getTemperatures_normalized_witness :
  Forall (fun t => normalized t = true)
    [mkTemperature_1_0 CPU_1_0 "cpu-thermal" (F32.of_Z 100)
       (F32.of_Z 100) (F32.of_Z 120) F32.NAN]
  /\ normalized (V2_0.temperature_of "cpu-thermal" (F32.of_Z 100000)) = true.
Proof.
  destruct (getTemperatures_normalized scan_decimal scan_decimal_valid fs_zone
              (mkStatus SUCCESS "")
              [mkTemperature_1_0 CPU_1_0 "cpu-thermal" (F32.of_Z 100)
                 (F32.of_Z 100) (F32.of_Z 120) F32.NAN]) as (H1 & _ & H3).
  split.
  - apply H1. reflexivity.
  - apply (H3 "cpu-thermal" ("100000" ++ newline)). reflexivity.
Defined.

(** * Further properties *)

(** ** The registry of callbacks *)

Lemma NoDup_snoc {A} (l : list A) (x : A) :
  NoDup l -> ~ In x l -> NoDup (l ++ [x]).
Proof.
  induction l as [|a l IH]; intros Hl Hx; simpl.
  - constructor; [intros []|constructor].
  - inversion Hl as [|? ? Ha Hl']; subst. constructor.
    + rewrite in_app_iff. intros [H|[H|[]]]; [contradiction|].
      subst. apply Hx. now left.
    + apply IH; [exact Hl'|]. intro H. apply Hx. now right.
Qed.

Lemma NoDup_map_filter {A B} (f : A -> B) (g : A -> bool) (l : list A) :
  NoDup (map f l) -> NoDup (map f (filter g l)).
Proof.
  induction l as [|a l IH]; simpl; intro H; [constructor|].
  inversion H as [|? ? Ha Hl]; subst.
  destruct (g a); simpl; [constructor|]; auto.
  intro Hin. apply Ha. apply in_map_iff in Hin as [c [Hc Hin]].
  apply in_map_iff. exists c. split; [exact Hc|].
  apply filter_In in Hin. tauto.
Qed.

Lemma filter_negb_length {A} (f : A -> bool) (l : list A) :
  (List.length (filter (fun a => negb (f a)) l) + List.length (filter f l)
   = List.length l)%nat.
Proof.
  induction l as [|a l IH]; simpl; [reflexivity|].
  destruct (f a); simpl; lia.
Qed.

Lemma filter_filter_negb {A} (f : A -> bool) (l : list A) :
  filter f (filter (fun a => negb (f a)) l) = [].
Proof.
  induction l as [|a l IH]; simpl; [reflexivity|].
  destruct (f a) eqn:E; simpl; [exact IH|]. now rewrite E.
Qed.

Lemma registrations_filter_other (callbacks_ : V2_0.registry) (cb cb' : sp) :
  cb' <> cb ->
  registrations cb'
    (filter (fun c => negb (interfacesEqual (V2_0.callback c) cb)) callbacks_)
  = registrations cb' callbacks_.
Proof.
  intro Hne. unfold registrations.
  induction callbacks_ as [|c l IH]; simpl; [reflexivity|].
  destruct (interfacesEqual (V2_0.callback c) cb) eqn:E; simpl.
  - apply interfacesEqual_eq in E.
    destruct (interfacesEqual (V2_0.callback c) cb') eqn:E'; [|exact IH].
    apply interfacesEqual_eq in E'. congruence.
  - destruct (interfacesEqual (V2_0.callback c) cb'); [f_equal|]; exact IH.
Qed.

(** X1: in every state the V2.0 service can reach no registration holds a
    null callback and no two registrations hold the same callback. *)
Theorem registry_invariant (callbacks_ : V2_0.registry) :
  reachable callbacks_ ->
  NoDup (map V2_0.callback callbacks_)
  /\ Forall (fun c => V2_0.callback c <> None) callbacks_.
Proof.
  induction 1 as [|s cb ft ty Hs [IHd IHn]|s cb Hs [IHd IHn]].
  - split; constructor.
  - unfold V2_0.registerThermalChangedCallback.
    destruct cb as [b|]; [|now split].
    destruct (existsb _ s) eqn:E; cbn [snd]; [now split|].
    split.
    + rewrite map_app. apply NoDup_snoc; [exact IHd|].
      cbn [V2_0.callback]. intro Hin.
      apply in_map_iff in Hin as [c [Hc Hin]].
      assert (Hp : existsb (fun c => interfacesEqual (V2_0.callback c) (Some b)) s = true).
      { apply present_existsb. now exists c. }
      congruence.
    + apply Forall_app. split; [exact IHn|].
      constructor; [discriminate|constructor].
  - unfold V2_0.unregisterThermalChangedCallback.
    destruct cb as [b|]; [|now split].
    assert (Hf : NoDup (map V2_0.callback
                   (filter (fun c => negb (interfacesEqual (V2_0.callback c) (Some b))) s))
                 /\ Forall (fun c => V2_0.callback c <> None)
                      (filter (fun c => negb (interfacesEqual (V2_0.callback c) (Some b))) s)).
    { split; [now apply NoDup_map_filter|].
      apply Forall_forall. intros c Hc. apply filter_In in Hc as [Hc _].
      rewrite Forall_forall in IHn. now apply IHn. }
    destruct (existsb _ s); exact Hf.
Qed.

Lemma registry_invariant_witness :
  let callbacks_ :=
    [V2_0.mkCallbackSetting (Some 7%nat) true CPU;
     V2_0.mkCallbackSetting (Some 9%nat) false GPU] in
  NoDup (map V2_0.callback callbacks_)
  /\ Forall (fun c => V2_0.callback c <> None) callbacks_.
Proof.
  intro callbacks_.
  apply (registry_invariant callbacks_).
  exact (reachable_register _ None true CPU
           (reachable_register _ (Some 7%nat) false CPU
              (reachable_register _ (Some 9%nat) false GPU
                 (reachable_register _ (Some 7%nat) true CPU reachable_init)))).
Defined.

(** X2: registering a callback that is not null and not present succeeds
    and puts it last, with the filter settings of the call; unregistering it
    then succeeds and gives back the registry as it was. *)
Theorem register_then_unregister (callbacks_ : V2_0.registry) (b : nat)
  (filterType : bool) (ty : TemperatureType) :
  (forall c, In c callbacks_ -> V2_0.callback c <> Some b) ->
  V2_0.registerThermalChangedCallback callbacks_ (Some b) filterType ty
  = (mkStatus SUCCESS "",
     (callbacks_ ++ [V2_0.mkCallbackSetting (Some b) filterType ty])%list)
  /\ V2_0.unregisterThermalChangedCallback
       (snd (V2_0.registerThermalChangedCallback callbacks_ (Some b) filterType ty))
       (Some b)
     = (mkStatus SUCCESS "", callbacks_).
Proof.
  intro Ha. pose proof (absent_existsb _ _ Ha) as E.
  unfold V2_0.registerThermalChangedCallback. rewrite E. split; [reflexivity|].
  cbn [snd]. unfold V2_0.unregisterThermalChangedCallback.
  rewrite existsb_app, filter_app, E.
  rewrite (existsb_false_filter_negb _ _ E).
  cbn [existsb filter V2_0.callback interfacesEqual orb negb].
  rewrite Nat.eqb_refl. cbn [orb negb]. now rewrite app_nil_r.
Qed.

Lemma register_then_unregister_witness :
  let callbacks_ := [V2_0.mkCallbackSetting (Some 7%nat) true CPU] in
  V2_0.registerThermalChangedCallback callbacks_ (Some 8%nat) false GPU
  = (mkStatus SUCCESS "",
     [V2_0.mkCallbackSetting (Some 7%nat) true CPU;
      V2_0.mkCallbackSetting (Some 8%nat) false GPU])
  /\ V2_0.unregisterThermalChangedCallback
       [V2_0.mkCallbackSetting (Some 7%nat) true CPU;
        V2_0.mkCallbackSetting (Some 8%nat) false GPU] (Some 8%nat)
     = (mkStatus SUCCESS "", callbacks_).
Proof.
  intro callbacks_.
  apply (register_then_unregister callbacks_ 8%nat false GPU).
  intros c [<-|[]]. simpl. discriminate.
Defined.

(** X3: unregistering a callback that is present succeeds; afterwards the
    callback is absent, the registrations of every other callback are the
    ones there were, and in a state the service can reach the registry is
    smaller by exactly one registration. *)
Theorem unregister_removes_one (callbacks_ : V2_0.registry) (b : nat)
  (Hreach : reachable callbacks_)
  (Hpresent : exists c, In c callbacks_ /\ V2_0.callback c = Some b) :
  let r := V2_0.unregisterThermalChangedCallback callbacks_ (Some b) in
  fst r = mkStatus SUCCESS ""
  /\ registrations (Some b) (snd r) = []
  /\ (forall b', b' <> b -> registrations (Some b') (snd r)
                            = registrations (Some b') callbacks_)
  /\ (List.length (snd r) + 1 = List.length callbacks_)%nat.
Proof.
  pose proof (proj1 (present_existsb _ _) Hpresent) as E.
  unfold V2_0.unregisterThermalChangedCallback. rewrite E. cbn [fst snd].
  split; [reflexivity|]. split; [|split].
  - apply filter_filter_negb.
  - intros b' Hne. apply registrations_filter_other. congruence.
  - pose proof (filter_negb_length
                  (fun c => interfacesEqual (V2_0.callback c) (Some b)) callbacks_) as Hl.
    pose proof (reachable_unique _ Hreach (Some b)) as Hu.
    pose proof (present_registrations _ _ Hpresent) as Hp.
    unfold registrations in Hu, Hp. lia.
Qed.

Lemma unregister_removes_one_witness :
  let callbacks_ :=
    [V2_0.mkCallbackSetting (Some 7%nat) true CPU;
     V2_0.mkCallbackSetting (Some 9%nat) false GPU] in
  let r := V2_0.unregisterThermalChangedCallback callbacks_ (Some 7%nat) in
  fst r = mkStatus SUCCESS ""
  /\ registrations (Some 7%nat) (snd r) = []
  /\ (forall b', b' <> 7%nat -> registrations (Some b') (snd r)
                               = registrations (Some b') callbacks_)
  /\ (List.length (snd r) + 1 = 2)%nat.
Proof.
  intro callbacks_.
  apply (unregister_removes_one callbacks_ 7%nat).
  - exact (reachable_register _ (Some 9%nat) false GPU
             (reachable_register _ (Some 7%nat) true CPU reachable_init)).
  - exists (V2_0.mkCallbackSetting (Some 7%nat) true CPU).
    split; [left; reflexivity|reflexivity].
Defined.

(** ** The sentinel *)

Lemma eqb_unknown_eq (x : float) :
  F32.eqb x UNKNOWN_TEMPERATURE = true -> x = UNKNOWN_TEMPERATURE.
Proof.
  rewrite unknown_temperature_value. unfold F32.eqb, SFeqb.
  destruct x as [s|s| |s m e]; cbn [SFcompare]; try (destruct s; discriminate);
    try discriminate.
  destruct s; [|discriminate].
  destruct (Z.compare_spec e 104) as [->| |]; try discriminate.
  destruct (Pos.compare_cont Eq m 16777215) eqn:E; try discriminate.
  apply Pos.compare_eq in E. now subst.
Qed.

(** X4: [finalizeTemperature] turns the sentinel into a not-a-number and
    gives back every other value as it is; what it returns is never equal to
    the sentinel. *)
Theorem finalizeTemperature_cases (temperature : float) :
  F32.eqb (finalizeTemperature temperature) UNKNOWN_TEMPERATURE = false
  /\ ((temperature = UNKNOWN_TEMPERATURE
       /\ finalizeTemperature temperature = F32.NAN)
      \/ (F32.eqb temperature UNKNOWN_TEMPERATURE = false
          /\ finalizeTemperature temperature = temperature)).
Proof.
  unfold finalizeTemperature.
  destruct (F32.eqb temperature UNKNOWN_TEMPERATURE) eqn:E.
  - split; [reflexivity|]. left. split; [now apply eqb_unknown_eq|reflexivity].
  - split; [exact E|]. right. now split.
Qed.

(** ** Current temperatures *)

Lemma TemperatureType_eqb_eq (a b : TemperatureType) :
  TemperatureType_eqb a b = true <-> a = b.
Proof. destruct a, b; simpl; split; intro H; try discriminate; reflexivity. Qed.

(** X5: from the temperatures of the helper [getCurrentTemperatures] keeps,
    in their order, the ones whose type is the type asked for when the
    filter is on, and all of them when it is off, with their names and
    values; it reports a success exactly when it keeps one. *)
Theorem getCurrentTemperatures_filters (filterType : bool) (type : TemperatureType)
  (temperatures_1_0 : list Temperature_1_0) :
  let kept :=
    filter (fun temp => negb filterType
                        || TemperatureType_eqb type (cast_type (type_1_0 temp)))
      temperatures_1_0 in
  snd (V2_0.currentTemperatures filterType type temperatures_1_0)
  = map (fun temp => mkTemperature_2_0 (cast_type (type_1_0 temp)) (name_1_0 temp)
                       (currentValue temp) NONE) kept
  /\ fst (V2_0.currentTemperatures filterType type temperatures_1_0)
     = match kept with
       | [] => mkStatus FAILURE "Unknown error -2"
       | _ :: _ => mkStatus SUCCESS ""
       end.
Proof.
  intro kept.
  assert (Hc : V2_0.convert filterType type temperatures_1_0
               = map (fun temp => mkTemperature_2_0 (cast_type (type_1_0 temp))
                                    (name_1_0 temp) (currentValue temp) NONE) kept).
  { unfold kept, V2_0.convert.
    induction temperatures_1_0 as [|t l IH]; simpl; [reflexivity|].
    destruct (negb filterType || _); simpl; now rewrite IH. }
  unfold V2_0.currentTemperatures.
  destruct temperatures_1_0 as [|t l]; [split; reflexivity|].
  cbn [List.length Nat.eqb]. rewrite Hc.
  destruct kept; split; reflexivity.
Qed.

(** X6: the V2.0 service never returns a temperature.  Whatever the files
    hold, [getTemperatures] and [getCurrentTemperatures] report the failure
    with the message ["Unknown error -2"] and an empty sequence when the
    thermal directory opens, and do not return when it does not. *)
Theorem temperatures_2_0_never_returned (scan_float : string -> option float)
  (fsys : filesystem) (filterType : bool) (type : TemperatureType) :
  V2_0.getTemperatures scan_float fsys
  = match dir fsys V2_0.kTemperaturePath with
    | Some _ => Returned (mkStatus FAILURE "Unknown error -2", [])
    | None => Aborted FilesystemError
    end
  /\ V2_0.getCurrentTemperatures scan_float fsys filterType type
     = match dir fsys V2_0.kTemperaturePath with
       | Some _ => Returned (mkStatus FAILURE "Unknown error -2", [])
       | None => Aborted FilesystemError
       end.
Proof.
  unfold V2_0.getTemperatures, V2_0.getCurrentTemperatures, V2_0.getTemperaturesHelper.
  destruct (dir fsys _); [|split; reflexivity].
  rewrite read_zones_2_0_empty. split; reflexivity.
Qed.

(** ** The callback of the V1.1 service, further *)

(** X7: a sequence of [registerThermalCallback] calls sends one
    notification for each callback that is not null, in the order of the
    calls, to that callback and to no callback registered before; each says
    not throttling and carries the temperature named ["thermal"] with a
    not-a-number value and the thresholds 100 and 120. *)
Theorem registerThermalCallbacks_notices (sThermalCb : sp) (calls : list sp) :
  snd (registerThermalCallbacks sThermalCb calls) = notices calls.
Proof.
  revert sThermalCb. induction calls as [|c calls IH]; intro s; [reflexivity|].
  cbn [registerThermalCallbacks]. unfold notices. cbn [flat_map].
  destruct c as [cb|].
  - rewrite registration_temperature.
    specialize (IH (Some cb)). destruct (registerThermalCallbacks (Some cb) calls).
    cbn [snd] in *. now rewrite IH.
  - cbn [V1_1.registerThermalCallback].
    specialize (IH s). destruct (registerThermalCallbacks s calls).
    cbn [snd] in *. now rewrite IH.
Qed.

(** ** Thresholds *)

Lemma is_blank_scan_token (text : string) :
  V2_0.is_blank text = true -> scan_token text = EmptyString.
Proof.
  unfold V2_0.is_blank, scan_token. destruct (skip_space text); [reflexivity|discriminate].
Qed.

Lemma read_threshold_zone (fsys : filesystem) (filenameStr : string) :
  V2_0.read_threshold fsys filenameStr
  = if zone_with_type fsys filenameStr
    then Some (V2_0.threshold_of (zone_type_name fsys filenameStr))
    else None.
Proof.
  unfold V2_0.read_threshold, zone_with_type, zone_type_name.
  destruct (prefix V2_0.kThermalZone filenameStr); cbn [andb]; [|reflexivity].
  unfold ifstream_open. cbn [rdbuf ifstream_default].
  destruct (file fsys _) as [text|]; cbn [ifstream_fail failbit]; [|reflexivity].
  unfold V2_0.extract_string. cbn [failbit ifstream_text rdbuf].
  destruct (V2_0.is_blank text) eqn:Eb; [|reflexivity].
  now rewrite (is_blank_scan_token text Eb).
Qed.

(** X8: [getTemperatureThresholds] with a filter on another type than CPU
    fails with the message ["Wrong filter type"], whatever the file system
    holds.  Otherwise it does not return when the thermal directory does
    not open, and on a directory that opens it succeeds, with no zone as
    with many, and returns one threshold for each thermal zone whose [type]
    file opens, in the order of the directory, named by the first word of
    that file: type CPU, hot boundaries 100 at [SEVERE] and 120 at
    [SHUTDOWN], every other boundary a not-a-number. *)
Theorem getTemperatureThresholds_zones (fsys : filesystem) (filterType : bool)
  (type : TemperatureType) :
  V2_0.getTemperatureThresholds fsys filterType type
  = (if filterType && negb (TemperatureType_eqb type CPU)
     then Returned (mkStatus FAILURE "Wrong filter type", [])
     else
       match dir fsys V2_0.kTemperaturePath with
       | None => Aborted FilesystemError
       | Some entries =>
           Returned (mkStatus SUCCESS "",
                     map (fun e => mkTemperatureThreshold CPU (zone_type_name fsys e)
                                     [F32.NAN; F32.NAN; F32.NAN; F32.of_Z 100;
                                      F32.NAN; F32.NAN; F32.of_Z 120]
                                     [F32.NAN; F32.NAN; F32.NAN; F32.NAN;
                                      F32.NAN; F32.NAN; F32.NAN]
                                     F32.NAN)
                       (filter (zone_with_type fsys) entries))
       end).
Proof.
  unfold V2_0.getTemperatureThresholds.
  destruct (filterType && negb (TemperatureType_eqb type CPU)); [reflexivity|].
  destruct (dir fsys V2_0.kTemperaturePath) as [entries|]; [|reflexivity].
  do 2 f_equal.
  induction entries as [|e entries IH]; cbn [flat_map filter map]; [reflexivity|].
  rewrite read_threshold_zone.
  destruct (zone_with_type fsys e); cbn [app map]; [f_equal|]; exact IH.
Qed.

Lemma getTemperatureThresholds_zones_witness :
  V2_0.getTemperatureThresholds fs_zones true GPU
  = Returned (mkStatus FAILURE "Wrong filter type", [])
  /\ V2_0.getTemperatureThresholds fs_stat true GPU
     = Returned (mkStatus FAILURE "Wrong filter type", [])
  /\ V2_0.getTemperatureThresholds fs_stat true CPU = Aborted FilesystemError
  /\ V2_0.getTemperatureThresholds fs_zones true CPU
     = Returned (mkStatus SUCCESS "",
                 [V2_0.threshold_of "cpu-thermal"; V2_0.threshold_of ""])
  /\ V2_0.getTemperatureThresholds fs_empty false GPU
     = Returned (mkStatus SUCCESS "", []).
Proof.
  split; [|split; [|split; [|split]]].
  - exact (getTemperatureThresholds_zones fs_zones true GPU).
  - exact (getTemperatureThresholds_zones fs_stat true GPU).
  - exact (getTemperatureThresholds_zones fs_stat true CPU).
  - exact (getTemperatureThresholds_zones fs_zones true CPU).
  - exact (getTemperatureThresholds_zones fs_empty false GPU).
Defined.

(** ** CPU usages of the V2.0 service, further *)

Lemma span_isdigit_idem (s : string) :
  span isdigit (fst (span isdigit s)) = (fst (span isdigit s), EmptyString).
Proof.
  induction s as [|c s IH]; cbn [span]; [reflexivity|].
  destruct (isdigit c) eqn:Hc; [|reflexivity].
  destruct (span isdigit s) as [a b]. cbn [fst] in *. cbn [span].
  now rewrite Hc, IH.
Qed.

(** The first group of a match is a run of digits, at least one. *)
Lemma regex_search_core (tmp g1 g2 g3 g4 g5 : string) :
  V2_0.regex_search tmp = Some (g1, g2, g3, g4, g5) ->
  exists r, g1 = fst (span isdigit r) /\ is_empty g1 = false.
Proof.
  intro H. apply regex_search_match_here in H as [s H].
  unfold V2_0.match_here in H.
  cpu_prefix s r.
  pose proof (eq_refl (fst (span isdigit r))) as Hd.
  destruct (span isdigit r) as [d1 r1] eqn:Es. cbn [fst] in Hd.
  destruct (is_empty d1) eqn:Ee; [discriminate|].
  destruct (V2_0.match_field r1) as [[f2 r2]|]; [|discriminate].
  destruct (V2_0.match_field r2) as [[f3 r3]|]; [|discriminate].
  destruct (V2_0.match_field r3) as [[f4 r4]|]; [|discriminate].
  destruct (V2_0.match_field r4) as [[f5 r5]|]; [|discriminate].
  injection H as <- _ _ _ _.
  exists r. rewrite Es. split; [reflexivity|exact Ee].
Qed.

Lemma regex_search_core_label (tmp g1 g2 g3 g4 g5 : string) :
  V2_0.regex_search tmp = Some (g1, g2, g3, g4, g5) ->
  is_core_label ("CPU" ++ g1) = true /\ skip_space g1 = g1.
Proof.
  intro H. destruct (regex_search_core _ _ _ _ _ _ H) as [r [-> He]].
  split.
  - cbn [append is_core_label]. rewrite He, span_isdigit_idem. reflexivity.
  - apply skip_space_digits.
Qed.

(** What a round pushes for a line that matches with numbers that fit. *)
Lemma read_cpu_2_0_push (fsys : filesystem) (tmp : string) (o o' : Z) (u : CpuUsage) :
  V2_0.read_cpu fsys tmp o = Returned (o', Some u) ->
  exists g1 g2 g3 g4 g5,
    V2_0.regex_search tmp = Some (g1, g2, g3, g4, g5)
    /\ digits_value 0 g1 <= INT_MAX
    /\ cpu_name u = "CPU" ++ g1
    /\ active u = add64 (add64 (digits_value 0 (skip_space g2))
                                (digits_value 0 (skip_space g3)))
                        (digits_value 0 (skip_space g4))
    /\ total u = add64 (active u) (digits_value 0 (skip_space g5))
    /\ (file fsys ("/sys/devices/system/cpu/cpu" ++ g1 ++ "/online") = None ->
        isOnline u = (digits_value 0 g1 =? 0)).
Proof.
  unfold V2_0.read_cpu.
  destruct (V2_0.regex_search tmp) as [[[[[g1 g2] g3] g4] g5]|] eqn:E.
  2:{ intro H. discriminate. }
  destruct (regex_search_core_label _ _ _ _ _ _ E) as [_ Hs].
  unfold V2_0.stoi, V2_0.stoull. rewrite Hs.
  destruct (digits_value 0 g1 <=? INT_MAX) eqn:E1; [|discriminate]. cbn [bind].
  repeat (destruct (_ <=? UINT64_MAX); [|discriminate]; cbn [bind]).
  destruct (V2_0.extract_int _ _) as [x fs'] eqn:Ex.
  intro H. injection H as _ <-.
  exists g1, g2, g3, g4, g5. cbn [cpu_name active total isOnline].
  repeat split. { now apply Z.leb_le. }
  intro Hf. unfold ifstream_ctor, ifstream_open in Ex.
  cbn [rdbuf ifstream_default] in Ex. rewrite Hf in Ex.
  unfold V2_0.extract_int in Ex. cbn [ifstream_fail failbit] in Ex.
  injection Ex as <- _. now destruct (digits_value 0 g1 =? 0).
Qed.

Lemma read_cpu_2_0_round (fsys : filesystem) (tmp : string) (o : Z) :
  in_range tmp = true ->
  if matches tmp
  then exists o' u, V2_0.read_cpu fsys tmp o = Returned (o', Some u)
                    /\ cpu_name u = cpu_name_of_line tmp
  else V2_0.read_cpu fsys tmp o = Returned (o, None).
Proof.
  intro Hr. destruct (read_cpu_2_0_returns fsys tmp o Hr) as [[o' p] Hp].
  unfold matches, cpu_name_of_line.
  destruct (V2_0.regex_search tmp) as [[[[[g1 g2] g3] g4] g5]|] eqn:E.
  - destruct p as [u|].
    + exists o', u. split; [exact Hp|].
      destruct (read_cpu_2_0_push _ _ _ _ _ Hp) as (h1 & h2 & h3 & h4 & h5 & E' & _ & Hn & _).
      rewrite E in E'. injection E' as <- _ _ _ _. exact Hn.
    + unfold V2_0.read_cpu in Hp. rewrite E in Hp.
      unfold V2_0.stoi, V2_0.stoull in Hp.
      destruct (_ <=? INT_MAX); [|discriminate]. cbn [bind] in Hp.
      repeat (destruct (_ <=? UINT64_MAX); [|discriminate]; cbn [bind] in Hp).
      destruct (V2_0.extract_int _ _). discriminate.
  - now apply read_cpu_2_0_unmatched.
Qed.

Lemma read_cpus_2_0_names (fsys : filesystem) (lines : list string) :
  forallb in_range lines = true ->
  forall o cpuUsages,
  exists l, V2_0.read_cpus fsys lines o cpuUsages = Returned (cpuUsages ++ l)%list
            /\ map cpu_name l = map cpu_name_of_line (filter matches lines).
Proof.
  induction lines as [|tmp lines IH]; intros H o acc; cbn [V2_0.read_cpus].
  - exists []. now rewrite app_nil_r.
  - cbn [forallb] in H. apply andb_true_iff in H as [Ht Hl].
    pose proof (read_cpu_2_0_round fsys tmp o Ht) as Hr. cbn [filter].
    destruct (matches tmp).
    + destruct Hr as (o' & u & Hr & Hn). rewrite Hr. cbn [bind].
      destruct (IH Hl o' (acc ++ [u])%list) as [l [El Hm]].
      exists (u :: l). rewrite El, <- app_assoc. split; [reflexivity|].
      cbn [map]. now rewrite Hn, Hm.
    + rewrite Hr. cbn [bind]. apply (IH Hl).
Qed.

Lemma read_cpus_2_0_forall (P : CpuUsage -> Prop) (fsys : filesystem)
  (HP : forall tmp o o' u, V2_0.read_cpu fsys tmp o = Returned (o', Some u) -> P u)
  (lines : list string) :
  forall o cpuUsages l,
  Forall P cpuUsages ->
  V2_0.read_cpus fsys lines o cpuUsages = Returned l ->
  Forall P l.
Proof.
  induction lines as [|tmp lines IH]; intros o acc l Hacc; cbn [V2_0.read_cpus].
  - intro E. injection E as <-. exact Hacc.
  - destruct (V2_0.read_cpu fsys tmp o) as [[o' [u|]]|f] eqn:Er; cbn [bind];
      [| |discriminate].
    + apply IH. apply Forall_app. split; [exact Hacc|].
      constructor; [|constructor]. exact (HP _ _ _ _ Er).
    + apply IH. exact Hacc.
Qed.

Lemma getCpuUsages_2_0_forall (P : CpuUsage -> Prop) (fsys : filesystem)
  (HP : forall tmp o o' u, V2_0.read_cpu fsys tmp o = Returned (o', Some u) -> P u)
  (status : ThermalStatus) (cpuUsages : list CpuUsage) :
  V2_0.getCpuUsages fsys = Returned (status, cpuUsages) ->
  Forall P cpuUsages.
Proof.
  destruct (file fsys V2_0.kCpuUsageFile) as [text|] eqn:Ef.
  - rewrite (getCpuUsages_2_0_opened fsys text Ef).
    destruct (V2_0.read_cpus fsys (V2_0.getlines text) 0 []) as [l|f] eqn:E;
      cbn [bind]; [|discriminate].
    intro H. injection H as _ <-.
    exact (read_cpus_2_0_forall P fsys HP _ 0 [] l (Forall_nil _) E).
  - rewrite (getCpuUsages_2_0_unopened fsys Ef).
    intro H. injection H as _ <-. constructor.
Qed.

(** X9: when the counters file opens and its numbers fit their types, the
    V2.0 service returns exactly one usage for each line on which the
    expression finds a match, in the order of the file, none for the other
    lines, and names it [CPU] followed by the digits of the line as they are
    written. *)
Theorem getCpuUsages_2_0_entries (fsys : filesystem) (text : string)
  (Hfile : file fsys V2_0.kCpuUsageFile = Some text)
  (Hrange : forallb in_range (V2_0.getlines text) = true) :
  exists cpuUsages,
    V2_0.getCpuUsages fsys = Returned (mkStatus SUCCESS "", cpuUsages)
    /\ map cpu_name cpuUsages
       = map cpu_name_of_line (filter matches (V2_0.getlines text))
    /\ Forall (fun u => is_core_label (cpu_name u) = true) cpuUsages.
Proof.
  rewrite (getCpuUsages_2_0_opened fsys text Hfile).
  destruct (read_cpus_2_0_names fsys _ Hrange 0 []) as [l [El Hm]].
  exists l. rewrite El. cbn [bind app]. split; [reflexivity|]. split; [exact Hm|].
  apply (read_cpus_2_0_forall _ fsys) with (lines := V2_0.getlines text) (o := 0)
    (cpuUsages := @nil CpuUsage); [|constructor|exact El].
  intros tmp o o' u Hr.
  destruct (read_cpu_2_0_push _ _ _ _ _ Hr) as (g1 & g2 & g3 & g4 & g5 & E & _ & Hn & _).
  rewrite Hn. exact (proj1 (regex_search_core_label _ _ _ _ _ _ E)).
Qed.

Lemma getCpuUsages_2_0_entries_witness :
  exists cpuUsages,
    V2_0.getCpuUsages fs_stat = Returned (mkStatus SUCCESS "", cpuUsages)
    /\ map cpu_name cpuUsages = ["CPU0"; "CPU1"]
    /\ Forall (fun u => is_core_label (cpu_name u) = true) cpuUsages.
Proof.
  exact (getCpuUsages_2_0_entries fs_stat
           ("cpu  30 4 20 600 0 0 0" ++ newline ++
            "cpu0 10 1 5 300 0 0 0" ++ newline ++
            "cpu1 20 3 15 300 0 0 0" ++ newline ++
            "intr 12345" ++ newline) eq_refl eq_refl).
Defined.

(** X10: when no online file of a core opens, the V2.0 service reports the
    core whose number is zero as on line and every other core as off
    line. *)
Theorem getCpuUsages_2_0_online_default (fsys : filesystem)
  (status : ThermalStatus) (cpuUsages : list CpuUsage)
  (Hnone : forall g, file fsys ("/sys/devices/system/cpu/cpu" ++ g ++ "/online") = None) :
  V2_0.getCpuUsages fsys = Returned (status, cpuUsages) ->
  Forall (fun u => isOnline u = (core_of_name (cpu_name u) =? 0)) cpuUsages.
Proof.
  apply getCpuUsages_2_0_forall.
  intros tmp o o' u Hr.
  destruct (read_cpu_2_0_push _ _ _ _ _ Hr) as (g1 & g2 & g3 & g4 & g5 & _ & _ & Hn & _ & _ & Ho).
  rewrite Hn. cbn [append core_of_name]. apply Ho, Hnone.
Qed.

Lemma getCpuUsages_2_0_online_default_witness :
  Forall (fun u => isOnline u = (core_of_name (cpu_name u) =? 0))
    [mkCpuUsage "CPU1" 38 338 false; mkCpuUsage "CPU00" 16 316 true].
Proof.
  apply (getCpuUsages_2_0_online_default
           (with_file "/proc/stat"
              ("cpu1 20 3 15 300 0 0 0" ++ newline ++ "cpu00 10 1 5 300" ++ newline)
              fs_empty)
           (mkStatus SUCCESS "")); reflexivity.
Defined.

Section FilledOnlineFiles.

Variable fsys : filesystem.

(** No online file that opens holds white space only. *)
Hypothesis online_filled :
  forall g text,
    file fsys ("/sys/devices/system/cpu/cpu" ++ g ++ "/online") = Some text ->
    V2_0.is_blank text = false.

(** The value [isOnline] has when a round starts does not reach the usage
    the round pushes: the round overwrites it, the online file being
    filled. *)
Lemma read_cpu_2_0_state_free (tmp : string) (o1 o2 : Z) :
  match V2_0.regex_search tmp with
  | Some _ => V2_0.read_cpu fsys tmp o1 = V2_0.read_cpu fsys tmp o2
  | None => V2_0.read_cpu fsys tmp o1 = Returned (o1, None)
            /\ V2_0.read_cpu fsys tmp o2 = Returned (o2, None)
  end.
Proof.
  unfold V2_0.read_cpu.
  destruct (V2_0.regex_search tmp) as [[[[[g1 g2] g3] g4] g5]|]; [|now split].
  destruct (V2_0.stoi g1); cbn [bind]; [|reflexivity].
  repeat match goal with
         | |- context [V2_0.stoull ?g] => destruct (V2_0.stoull g); cbn [bind]; [|reflexivity]
         end.
  unfold ifstream_ctor, ifstream_open. cbn [rdbuf ifstream_default].
  destruct (file fsys _) as [text|] eqn:Ef; cbn [ifstream_fail failbit]; [|reflexivity].
  unfold V2_0.extract_int. cbn [failbit ifstream_text rdbuf].
  rewrite (online_filled _ _ Ef). reflexivity.
Qed.

Lemma read_cpus_2_0_state_free (lines : list string) :
  forall o1 o2 cpuUsages,
  V2_0.read_cpus fsys lines o1 cpuUsages = V2_0.read_cpus fsys lines o2 cpuUsages.
Proof.
  induction lines as [|tmp lines IH]; intros o1 o2 acc; cbn [V2_0.read_cpus];
    [reflexivity|].
  pose proof (read_cpu_2_0_state_free tmp o1 o2) as H.
  destruct (V2_0.regex_search tmp).
  - rewrite H. reflexivity.
  - destruct H as [-> ->]. cbn [bind]. apply IH.
Qed.

Lemma read_cpus_2_0_app (l1 l2 : list string) :
  forall o cpuUsages,
  V2_0.read_cpus fsys (l1 ++ l2) o cpuUsages
  = (a <- V2_0.read_cpus fsys l1 o cpuUsages ;; V2_0.read_cpus fsys l2 0 a).
Proof.
  induction l1 as [|tmp l1 IH]; intros o acc; cbn [app V2_0.read_cpus bind].
  - apply read_cpus_2_0_state_free.
  - destruct (V2_0.read_cpu fsys tmp o) as [[o' [u|]]|f]; cbn [bind];
      [apply IH|apply IH|reflexivity].
Qed.

Lemma read_cpus_2_0_acc (lines : list string) :
  forall o cpuUsages,
  V2_0.read_cpus fsys lines o cpuUsages
  = (l <- V2_0.read_cpus fsys lines o [] ;; Returned (cpuUsages ++ l)%list).
Proof.
  induction lines as [|tmp lines IH]; intros o acc; cbn [V2_0.read_cpus bind].
  - now rewrite app_nil_r.
  - destruct (V2_0.read_cpu fsys tmp o) as [[o' [u|]]|f]; cbn [bind app];
      [|apply IH|reflexivity].
    rewrite (IH o' (acc ++ [u])%list), (IH o' [u]).
    destruct (V2_0.read_cpus fsys lines o' []) as [l|f]; cbn [bind]; [|reflexivity].
    now rewrite <- app_assoc.
Qed.

(** X12: when no online file that opens is empty or blank, the V2.0
    service reads the lines of the counters file independently of one
    another: on a file whose lines are those of one text followed by those
    of another, the call returns the usages of the first followed by the
    usages of the second, and does not return when the call on either does
    not.  (An online file that is empty or blank leaves [isOnline] at the
    value of the line before, see X20.) *)
Theorem getCpuUsages_2_0_appends (text text1 text2 : string)
  (Hlines : V2_0.getlines text = (V2_0.getlines text1 ++ V2_0.getlines text2)%list) :
  V2_0.getCpuUsages (with_file V2_0.kCpuUsageFile text fsys)
  = append_usages (V2_0.getCpuUsages (with_file V2_0.kCpuUsageFile text1 fsys))
                  (V2_0.getCpuUsages (with_file V2_0.kCpuUsageFile text2 fsys)).
Proof.
  rewrite !getCpuUsages_2_0_with_file, Hlines, read_cpus_2_0_app.
  unfold append_usages.
  destruct (V2_0.read_cpus fsys (V2_0.getlines text1) 0 []) as [a|f]; cbn [bind];
    [|reflexivity].
  rewrite read_cpus_2_0_acc.
  destruct (V2_0.read_cpus fsys (V2_0.getlines text2) 0 []) as [b|f]; reflexivity.
Qed.

End FilledOnlineFiles.

Lemma fs_stat_online_filled (g text : string) :
  file fs_stat ("/sys/devices/system/cpu/cpu" ++ g ++ "/online") = Some text ->
  V2_0.is_blank text = false.
Proof.
  cbn [fs_stat file lookup].
  destruct (String.eqb "/proc/stat" _); [intro H; injection H as <-; reflexivity|].
  destruct (String.eqb "/sys/devices/system/cpu/cpu1/online" _);
    [intro H; injection H as <-; reflexivity|discriminate].
Qed.

Lemma getCpuUsages_2_0_appends_witness :
  V2_0.getCpuUsages
    (with_file "/proc/stat"
       ("cpu0 10 1 5 300" ++ newline ++ "intr 1" ++ newline ++ "cpu1 20 3 15 300" ++ newline)
       fs_stat)
  = append_usages
      (V2_0.getCpuUsages
         (with_file "/proc/stat" ("cpu0 10 1 5 300" ++ newline ++ "intr 1" ++ newline) fs_stat))
      (V2_0.getCpuUsages
         (with_file "/proc/stat" ("cpu1 20 3 15 300" ++ newline) fs_stat)).
Proof.
  exact (getCpuUsages_2_0_appends fs_stat fs_stat_online_filled
           ("cpu0 10 1 5 300" ++ newline ++ "intr 1" ++ newline
            ++ "cpu1 20 3 15 300" ++ newline)
           ("cpu0 10 1 5 300" ++ newline ++ "intr 1" ++ newline)
           ("cpu1 20 3 15 300" ++ newline) eq_refl).
Defined.

(** ** CPU usages of the V1.1 service, further *)

Lemma substring_length_le (m : nat) :
  forall s, (String.length (substring 0 m s) <= m)%nat.
Proof.
  induction m as [|m IH]; intro s.
  - destruct s; simpl; lia.
  - destruct s as [|c s]; simpl; [lia|]. specialize (IH s). lia.
Qed.

Lemma read_cpu_1_1_push_name (fsys : filesystem) (line : string) (u : CpuUsage) :
  V1_1.read_cpu fsys line = Returned (V1_1.Push u) ->
  V1_1.is_cpu_line line = true
  /\ exists cpu_num,
       cpu_name u = snprintf 5 ("CPU" ++ show_int cpu_num)
       /\ (file fsys (V1_1.online_file_name cpu_num) = None ->
           isOnline u = (cpu_num =? 0)).
Proof.
  unfold V1_1.read_cpu.
  destruct (V1_1.is_cpu_line line); cbn [negb]; [|discriminate].
  destruct (V1_1.sscanf_cpu line) as [vals|f]; cbn [bind]; [|discriminate].
  destruct vals as [|c [|us [|n [|s [|i [|x vals]]]]]]; try discriminate.
  destruct (file fsys _) eqn:Ef.
  - destruct (V1_1.scan_d _) as [[[o r]|]|f]; cbn [bind]; try discriminate.
    intro H. injection H as <-. split; [reflexivity|].
    exists c. split; [reflexivity|]. intro Hn. congruence.
  - intro H. injection H as <-. split; [reflexivity|].
    exists c. split; [reflexivity|]. intros _. cbn [isOnline].
    now destruct (c =? 0).
Qed.

Lemma getCpuUsages_1_1_forall (P : CpuUsage -> Prop) (fsys : filesystem)
  (HP : forall line u, V1_1.read_cpu fsys line = Returned (V1_1.Push u) -> P u)
  (status : ThermalStatus) (cpuUsages : list CpuUsage) :
  V1_1.getCpuUsages fsys = Returned (status, cpuUsages) ->
  Forall P cpuUsages.
Proof.
  unfold V1_1.getCpuUsages. destruct (file fsys _) as [text|].
  2:{ intro H. injection H as _ <-. constructor. }
  generalize (@nil CpuUsage) (Forall_nil P).
  induction (V1_1.getlines text) as [|line lines IH]; intros acc Hacc;
    cbn [V1_1.read_cpus].
  - intro E. injection E as _ <-. exact Hacc.
  - destruct (V1_1.read_cpu fsys line) as [[|u|st]|f] eqn:Er; cbn [bind];
      [| | |discriminate].
    + apply IH. exact Hacc.
    + apply IH. apply Forall_app. split; [exact Hacc|].
      constructor; [|constructor]. exact (HP _ _ Er).
    + intro E. injection E as _ <-. exact Hacc.
Qed.

(** What a round pushes for a core line that is accepted. *)
Lemma read_cpu_1_1_accepted (fsys : filesystem) (line : string) :
  V1_1.is_cpu_line line = true ->
  accepted fsys line = true ->
  exists u, V1_1.read_cpu fsys line = Returned (V1_1.Push u)
            /\ cpu_name u = "CPU" ++ substring 0 1 (show_int (core_number line)).
Proof.
  intros Hc. unfold V1_1.read_cpu, accepted, core_number. rewrite Hc. cbn [negb].
  destruct (V1_1.sscanf_cpu line) as [vals|f]; cbn [bind]; [|discriminate].
  destruct vals as [|c [|us [|n [|s [|i [|x vals]]]]]]; try discriminate.
  destruct (file fsys _).
  - destruct (V1_1.scan_d _) as [[[o r]|]|f]; cbn [bind]; try discriminate.
    intros _. eexists. split; reflexivity.
  - intros _. eexists. split; reflexivity.
Qed.

Lemma read_cpus_1_1_names (fsys : filesystem) (lines : list string) :
  forallb (fun line => negb (V1_1.is_cpu_line line) || accepted fsys line) lines = true ->
  forall cpuUsages,
  exists l,
    V1_1.read_cpus fsys lines cpuUsages
    = Returned (mkStatus SUCCESS "", (cpuUsages ++ l)%list)
    /\ map cpu_name l
       = map (fun line => "CPU" ++ substring 0 1 (show_int (core_number line)))
           (filter V1_1.is_cpu_line lines).
Proof.
  induction lines as [|line lines IH]; intros H acc; cbn [V1_1.read_cpus].
  - exists []. now rewrite app_nil_r.
  - cbn [forallb] in H. apply andb_true_iff in H as [Hl Hr]. cbn [filter].
    destruct (V1_1.is_cpu_line line) eqn:Hc.
    + cbn [negb orb] in Hl.
      destruct (read_cpu_1_1_accepted fsys line Hc Hl) as [u [Hu Hn]].
      rewrite Hu. cbn [bind].
      destruct (IH Hr (acc ++ [u])%list) as [l [El Hm]].
      exists (u :: l). rewrite El, <- app_assoc. split; [reflexivity|].
      cbn [map]. now rewrite Hn, Hm.
    + unfold V1_1.read_cpu at 1. rewrite Hc. cbn [negb bind]. apply (IH Hr).
Qed.

(** X13: when the counters file opens and every core line of it is
    accepted (five numbers that fit their types, and an online file that is
    missing or holds a number), the V1.1 service returns a success and one
    usage for each core line, in the order of the file, named [CPU] followed
    by the first character only of the number of the core on that line,
    since the name is written to a buffer of five bytes: the lines of the
    cores 1 and 12 both give the name [CPU1]. *)
Theorem getCpuUsages_1_1_names (fsys : filesystem) (text : string)
  (Hfile : file fsys V1_1.CPU_USAGE_FILE = Some text)
  (Haccepted :
     forallb (fun line => negb (V1_1.is_cpu_line line) || accepted fsys line)
       (V1_1.getlines text) = true) :
  exists cpuUsages,
    V1_1.getCpuUsages fsys = Returned (mkStatus SUCCESS "", cpuUsages)
    /\ map cpu_name cpuUsages
       = map (fun line => "CPU" ++ substring 0 1 (show_int (core_number line)))
           (filter V1_1.is_cpu_line (V1_1.getlines text))
    /\ Forall (fun u => (String.length (cpu_name u) <= 4)%nat) cpuUsages.
Proof.
  destruct (read_cpus_1_1_names fsys _ Haccepted []) as [l [El Hm]].
  exists l. unfold V1_1.getCpuUsages. rewrite Hfile, El. cbn [app].
  split; [reflexivity|]. split; [exact Hm|].
  apply (getCpuUsages_1_1_forall _ fsys) with (status := mkStatus SUCCESS "").
  - intros line u Hr.
    destruct (read_cpu_1_1_push_name _ _ _ Hr) as [_ [c [Hn _]]].
    rewrite Hn. apply (substring_length_le 4).
  - unfold V1_1.getCpuUsages. rewrite Hfile. exact El.
Qed.

Lemma getCpuUsages_1_1_names_witness :
  exists cpuUsages,
    V1_1.getCpuUsages
      (with_file "/proc/stat"
         ("cpu  30 4 20 600" ++ newline ++ "cpu1 10 1 5 300" ++ newline
          ++ "cpu12 20 3 15 300" ++ newline) fs_empty)
    = Returned (mkStatus SUCCESS "", cpuUsages)
    /\ map cpu_name cpuUsages = ["CPU1"; "CPU1"]
    /\ Forall (fun u => (String.length (cpu_name u) <= 4)%nat) cpuUsages.
Proof.
  exact (getCpuUsages_1_1_names
           (with_file "/proc/stat"
              ("cpu  30 4 20 600" ++ newline ++ "cpu1 10 1 5 300" ++ newline
               ++ "cpu12 20 3 15 300" ++ newline) fs_empty)
           ("cpu  30 4 20 600" ++ newline ++ "cpu1 10 1 5 300" ++ newline
            ++ "cpu12 20 3 15 300" ++ newline) eq_refl eq_refl).
Defined.

(** X14: when no online file of a core opens, the V1.1 service reports the
    core whose number is zero, named [CPU0], as on line and no other. *)
Theorem getCpuUsages_1_1_online_default (fsys : filesystem)
  (status : ThermalStatus) (cpuUsages : list CpuUsage)
  (Hnone : forall cpu_num, file fsys (V1_1.online_file_name cpu_num) = None) :
  V1_1.getCpuUsages fsys = Returned (status, cpuUsages) ->
  Forall (fun u => exists cpu_num,
                     cpu_name u = "CPU" ++ substring 0 1 (show_int cpu_num)
                     /\ isOnline u = (cpu_num =? 0))
    cpuUsages.
Proof.
  apply getCpuUsages_1_1_forall. intros line u Hr.
  destruct (read_cpu_1_1_push_name _ _ _ Hr) as [_ [c [Hn Ho]]].
  exists c. split; [rewrite Hn; reflexivity|]. apply Ho, Hnone.
Qed.

Lemma getCpuUsages_1_1_online_default_witness :
  Forall (fun u => exists cpu_num,
                     cpu_name u = "CPU" ++ substring 0 1 (show_int cpu_num)
                     /\ isOnline u = (cpu_num =? 0))
    [mkCpuUsage "CPU0" 16 316 true; mkCpuUsage "CPU1" 38 338 false].
Proof.
  apply (getCpuUsages_1_1_online_default
           (with_file "/proc/stat"
              ("cpu0 10 1 5 300" ++ newline ++ "cpu12 20 3 15 300" ++ newline)
              fs_empty)
           (mkStatus SUCCESS "")); reflexivity.
Defined.

Lemma read_cpu_1_1_with_file (fsys : filesystem) (text line : string) :
  V1_1.read_cpu (with_file V1_1.CPU_USAGE_FILE text fsys) line
  = V1_1.read_cpu fsys line.
Proof.
  unfold V1_1.read_cpu.
  destruct (negb (V1_1.is_cpu_line line)); [reflexivity|].
  destruct (V1_1.sscanf_cpu line) as [vals|f]; cbn [bind]; [|reflexivity].
  destruct vals as [|c [|us [|n [|s [|i [|x vals]]]]]]; reflexivity.
Qed.

Lemma read_cpus_1_1_with_file (fsys : filesystem) (text : string) (lines : list string) :
  forall cpuUsages,
  V1_1.read_cpus (with_file V1_1.CPU_USAGE_FILE text fsys) lines cpuUsages
  = V1_1.read_cpus fsys lines cpuUsages.
Proof.
  induction lines as [|line lines IH]; intro acc; cbn [V1_1.read_cpus]; [reflexivity|].
  rewrite read_cpu_1_1_with_file.
  destruct (V1_1.read_cpu fsys line) as [[|u|st]|f]; cbn [bind];
    [apply IH|apply IH|reflexivity|reflexivity].
Qed.

Lemma read_cpus_1_1_skip (fsys : filesystem) (l1 l2 : list string) (line : string) :
  V1_1.is_cpu_line line = false ->
  forall cpuUsages,
  V1_1.read_cpus fsys (l1 ++ line :: l2) cpuUsages
  = V1_1.read_cpus fsys (l1 ++ l2) cpuUsages.
Proof.
  intro Hl. induction l1 as [|l l1 IH]; intro acc; cbn [app V1_1.read_cpus].
  - unfold V1_1.read_cpu at 1. rewrite Hl. reflexivity.
  - destruct (V1_1.read_cpu fsys l) as [[|u|st]|f]; cbn [bind];
      [apply IH|apply IH|reflexivity|reflexivity].
Qed.

(** X15: the V1.1 service passes over a line that does not start with [cpu]
    and a digit, such as the line of the totals: the call returns what it
    returns on the file without that line. *)
Theorem getCpuUsages_1_1_skips_other_lines (fsys : filesystem)
  (text text' line : string) (l1 l2 : list string)
  (Hline : V1_1.is_cpu_line line = false)
  (Htext : V1_1.getlines text = (l1 ++ line :: l2)%list)
  (Htext' : V1_1.getlines text' = (l1 ++ l2)%list) :
  V1_1.getCpuUsages (with_file V1_1.CPU_USAGE_FILE text fsys)
  = V1_1.getCpuUsages (with_file V1_1.CPU_USAGE_FILE text' fsys).
Proof.
  unfold V1_1.getCpuUsages. cbn [with_file file]. rewrite String.eqb_refl.
  rewrite !read_cpus_1_1_with_file, Htext, Htext'.
  now apply read_cpus_1_1_skip.
Qed.

Lemma getCpuUsages_1_1_skips_other_lines_witness :
  V1_1.getCpuUsages
    (with_file "/proc/stat"
       ("cpu  30 4 20 600" ++ newline ++ "cpu0 10 1 5 300" ++ newline) fs_stat)
  = V1_1.getCpuUsages
      (with_file "/proc/stat" ("cpu0 10 1 5 300" ++ newline) fs_stat).
Proof.
  exact (getCpuUsages_1_1_skips_other_lines fs_stat
           ("cpu  30 4 20 600" ++ newline ++ "cpu0 10 1 5 300" ++ newline)
           ("cpu0 10 1 5 300" ++ newline)
           ("cpu  30 4 20 600" ++ newline) [] ["cpu0 10 1 5 300" ++ newline]
           eq_refl eq_refl eq_refl).
Defined.

(** ** Temperatures of the V1.1 service, further *)

(** X16: a call of [getTemperatures] on the V1.1 service that returns
    reports a success exactly when it returns a temperature; with none, the
    failure carries the message of [strerror(-ENOENT)] when the thermal
    directory opened and no message when it did not. *)
Theorem getTemperatures_1_1_status (scan_float : string -> option float)
  (fsys : filesystem) (status : ThermalStatus) (temperatures : list Temperature_1_0) :
  V1_1.getTemperatures scan_float fsys = Returned (status, temperatures) ->
  status = match temperatures with
           | _ :: _ => mkStatus SUCCESS ""
           | [] => mkStatus FAILURE
                     (match dir fsys V1_1.TEMPERATURE_DIR with
                      | Some _ => "Unknown error -2"
                      | None => ""
                      end)
           end.
Proof.
  unfold V1_1.getTemperatures.
  destruct (dir fsys _) as [entries|].
  - destruct (V1_1.read_zones scan_float fsys entries []) as [l|f]; cbn [bind];
      [|discriminate].
    destruct l; cbn [List.length Nat.eqb]; intro H; injection H as <- <-; reflexivity.
  - intro H. injection H as <- <-. reflexivity.
Qed.

Lemma getTemperatures_1_1_status_witness :
  mkStatus SUCCESS "" = mkStatus SUCCESS ""
  /\ mkStatus FAILURE "Unknown error -2"
     = mkStatus FAILURE
         (match dir fs_empty V1_1.TEMPERATURE_DIR with
          | Some _ => "Unknown error -2"
          | None => ""
          end)
  /\ mkStatus FAILURE ""
     = mkStatus FAILURE
         (match dir fs_stat V1_1.TEMPERATURE_DIR with
          | Some _ => "Unknown error -2"
          | None => ""
          end).
Proof.
  split; [|split].
  - apply (getTemperatures_1_1_status scan_decimal fs_zone (mkStatus SUCCESS "")
             [mkTemperature_1_0 CPU_1_0 "cpu-thermal" (F32.of_Z 100)
                (F32.of_Z 100) (F32.of_Z 120) F32.NAN]).
    reflexivity.
  - apply (getTemperatures_1_1_status scan_decimal fs_empty
             (mkStatus FAILURE "Unknown error -2") []).
    reflexivity.
  - apply (getTemperatures_1_1_status scan_decimal fs_stat (mkStatus FAILURE "") []).
    reflexivity.
Defined.

Lemma read_zone_1_1_some (scan_float : string -> option float) (fsys : filesystem)
  (d_name : string) (t : Temperature_1_0) :
  V1_1.read_zone scan_float fsys d_name = Returned (Some t) ->
  prefix V1_1.THERMAL_DIR d_name = true
  /\ exists temp_text temp type_text,
       file fsys (snprintf V1_1.MAX_LENGTH
                    (V1_1.TEMPERATURE_DIR ++ "/" ++ d_name ++ "/temp")) = Some temp_text
       /\ scan_float temp_text = Some temp
       /\ file fsys (snprintf V1_1.MAX_LENGTH
                       (V1_1.TEMPERATURE_DIR ++ "/" ++ d_name ++ "/type")) = Some type_text
       /\ t = mkTemperature_1_0 CPU_1_0 (scan_token type_text)
                (F32.div temp (F32.of_Z 1000)) (F32.of_Z 100) (F32.of_Z 120) F32.NAN
       /\ is_empty (scan_token type_text) = false
       /\ (String.length (scan_token type_text) < 15)%nat.
Proof.
  unfold V1_1.read_zone.
  destruct (prefix _ d_name); [|discriminate].
  destruct (file fsys _) as [temp_text|]; [|discriminate].
  destruct (scan_float temp_text) as [temp|] eqn:Et; [|discriminate].
  destruct (file fsys _) as [type_text|]; [|discriminate].
  destruct (is_empty _) eqn:Ee; [discriminate|].
  destruct (Nat.leb _ _) eqn:El; [discriminate|].
  intro H. injection H as <-. split; [reflexivity|].
  exists temp_text, temp, type_text. repeat split; trivial.
  apply Nat.leb_gt in El. exact El.
Qed.

Lemma read_zones_1_1_zones (scan_float : string -> option float) (fsys : filesystem)
  (entries : list string) :
  forall temperatures l,
  V1_1.read_zones scan_float fsys entries temperatures = Returned l ->
  (List.length l
   <= List.length temperatures
      + List.length (filter (prefix V1_1.THERMAL_DIR) entries))%nat.
Proof.
  induction entries as [|de entries IH]; intros acc l; cbn [V1_1.read_zones filter].
  - intro H. injection H as <-. simpl. lia.
  - destruct (V1_1.read_zone scan_float fsys de) as [[t|]|f] eqn:Er; cbn [bind];
      [| |discriminate]; intro H; apply IH in H.
    + apply read_zone_1_1_some in Er as [-> _].
      rewrite length_app in H. simpl in *. lia.
    + destruct (prefix _ de); simpl; lia.
Qed.

(** On a zone without [hazard] a round reads what the two files give. *)
Lemma read_zone_1_1_reading (scan_float : string -> option float) (fsys : filesystem)
  (d_name : string) :
  hazard scan_float fsys d_name = false ->
  V1_1.read_zone scan_float fsys d_name
  = Returned (zone_reading scan_float fsys d_name).
Proof.
  unfold hazard, V1_1.read_zone, zone_reading.
  destruct (prefix _ d_name); cbn [andb]; [|reflexivity].
  destruct (file fsys _) as [temp_text|]; [|reflexivity].
  destruct (scan_float temp_text) as [temp|].
  - destruct (file fsys _) as [type_text|]; [|discriminate].
    intros ->. destruct (is_empty (scan_token type_text)); reflexivity.
  - destruct (file fsys _); reflexivity.
Qed.

Lemma read_zones_1_1_readings (scan_float : string -> option float) (fsys : filesystem)
  (entries : list string) :
  existsb (hazard scan_float fsys) entries = false ->
  forall temperatures,
  V1_1.read_zones scan_float fsys entries temperatures
  = Returned (temperatures
              ++ flat_map (fun e => match zone_reading scan_float fsys e with
                                    | Some t => [t]
                                    | None => []
                                    end) entries)%list.
Proof.
  induction entries as [|de entries IH]; intros H acc;
    cbn [V1_1.read_zones flat_map].
  - now rewrite app_nil_r.
  - cbn [existsb] in H. apply orb_false_iff in H as [Hd Hr].
    rewrite (read_zone_1_1_reading _ _ _ Hd). cbn [bind].
    destruct (zone_reading scan_float fsys de); rewrite (IH Hr).
    + now rewrite <- app_assoc.
    + reflexivity.
Qed.

(** X17: on a thermal directory that opens and in which every thermal zone
    whose [temp] file gives a number has a [type] file whose first word is
    shorter than fifteen characters, [getTemperatures] of the V1.1 service
    returns, in the order of the directory, exactly one temperature for each
    thermal zone whose [temp] file gives a number and whose [type] file
    holds a word: of type CPU, named by that word, with the number of that
    [temp] file divided by a thousand for value, the thresholds 100 and 120
    and a not-a-number for the threshold of virtual reality; and a success
    exactly when there is such a zone. *)
Theorem getTemperatures_1_1_content (scan_float : string -> option float)
  (fsys : filesystem) (entries : list string)
  (Hdir : dir fsys V1_1.TEMPERATURE_DIR = Some entries)
  (Hsafe : existsb (hazard scan_float fsys) entries = false) :
  let temperatures :=
    flat_map (fun e => match zone_reading scan_float fsys e with
                       | Some t => [t]
                       | None => []
                       end) entries in
  V1_1.getTemperatures scan_float fsys
  = Returned (match temperatures with
              | [] => mkStatus FAILURE "Unknown error -2"
              | _ :: _ => mkStatus SUCCESS ""
              end, temperatures)
  /\ (List.length temperatures
      <= List.length (filter (prefix V1_1.THERMAL_DIR) entries))%nat.
Proof.
  intro temperatures. split.
  - unfold V1_1.getTemperatures. rewrite Hdir.
    rewrite (read_zones_1_1_readings scan_float fsys entries Hsafe []).
    cbn [bind app]. fold temperatures. destruct temperatures; reflexivity.
  - pose proof (read_zones_1_1_readings scan_float fsys entries Hsafe []) as E.
    apply read_zones_1_1_zones in E. exact E.
Qed.

Lemma getTemperatures_1_1_content_witness :
  V1_1.getTemperatures scan_decimal fs_zones_skipped
  = Returned (mkStatus SUCCESS "",
              [mkTemperature_1_0 CPU_1_0 "cpu-thermal"
                 (F32.div (F32.of_Z 45000) (F32.of_Z 1000))
                 (F32.of_Z 100) (F32.of_Z 120) F32.NAN])
  /\ (1 <= 3)%nat.
Proof.
  exact (getTemperatures_1_1_content scan_decimal fs_zones_skipped
           ["thermal_zone0"; "thermal_zone1"; "thermal_zone2"; "cooling_device0"]
           eq_refl eq_refl).
Defined.

(** ** Returning and the online flag, V2.0 service *)

Lemma read_cpu_2_0_in_range (fsys : filesystem) (tmp : string) (o : Z) :
  match V2_0.read_cpu fsys tmp o with
  | Returned _ => in_range tmp = true
  | Aborted f => f = OutOfRange /\ in_range tmp = false
  end.
Proof.
  unfold V2_0.read_cpu, in_range.
  destruct (V2_0.regex_search tmp) as [[[[[g1 g2] g3] g4] g5]|]; [|reflexivity].
  unfold V2_0.stoi, V2_0.stoull.
  destruct (_ <=? INT_MAX); cbn [bind andb]; [|now split].
  destruct (digits_value 0 (skip_space g2) <=? UINT64_MAX); cbn [bind andb]; [|now split].
  destruct (digits_value 0 (skip_space g3) <=? UINT64_MAX); cbn [bind andb]; [|now split].
  destruct (digits_value 0 (skip_space g4) <=? UINT64_MAX); cbn [bind andb]; [|now split].
  destruct (digits_value 0 (skip_space g5) <=? UINT64_MAX); cbn [bind andb]; [|now split].
  destruct (V2_0.extract_int _ _). reflexivity.
Qed.

Lemma read_cpus_2_0_in_range (fsys : filesystem) (lines : list string) :
  forall o cpuUsages,
  match V2_0.read_cpus fsys lines o cpuUsages with
  | Returned _ => forallb in_range lines = true
  | Aborted f => f = OutOfRange /\ forallb in_range lines = false
  end.
Proof.
  induction lines as [|tmp lines IH]; intros o acc; cbn [V2_0.read_cpus forallb];
    [reflexivity|].
  pose proof (read_cpu_2_0_in_range fsys tmp o) as Hr.
  destruct (V2_0.read_cpu fsys tmp o) as [[o' [u|]]|f]; cbn [bind].
  - rewrite Hr. apply IH.
  - rewrite Hr. apply IH.
  - destruct Hr as [-> ->]. now split.
Qed.

(** X19: with the counters file open, [getCpuUsages] of the V2.0 service
    returns exactly when the numbers of every line that matches fit their
    types; otherwise it ends in [std::out_of_range], and in no other way. *)
Theorem getCpuUsages_2_0_returns (fsys : filesystem) (text : string)
  (Hfile : file fsys V2_0.kCpuUsageFile = Some text) :
  match V2_0.getCpuUsages fsys with
  | Returned _ => forallb in_range (V2_0.getlines text) = true
  | Aborted f => f = OutOfRange /\ forallb in_range (V2_0.getlines text) = false
  end.
Proof.
  rewrite (getCpuUsages_2_0_opened fsys text Hfile).
  pose proof (read_cpus_2_0_in_range fsys (V2_0.getlines text) 0 []) as H.
  destruct (V2_0.read_cpus fsys (V2_0.getlines text) 0 []); exact H.
Qed.

Lemma getCpuUsages_2_0_returns_witness :
  forallb in_range
    (V2_0.getlines ("cpu  30 4 20 600 0 0 0" ++ newline ++
                    "cpu0 10 1 5 300 0 0 0" ++ newline ++
                    "cpu1 20 3 15 300 0 0 0" ++ newline ++
                    "intr 12345" ++ newline)) = true
  /\ (OutOfRange = OutOfRange
      /\ forallb in_range
           (V2_0.getlines ("cpu0 18446744073709551616 0 0 1" ++ newline)) = false).
Proof.
  split.
  - exact (getCpuUsages_2_0_returns fs_stat _ eq_refl).
  - exact (getCpuUsages_2_0_returns fs_stat_huge _ eq_refl).
Defined.

(** The flag a round pushes, and the value it leaves in [isOnline]. *)
Lemma read_cpu_2_0_online (fsys : filesystem) (tmp : string) (o o' : Z)
  (pushed : option CpuUsage) :
  V2_0.read_cpu fsys tmp o = Returned (o', pushed) ->
  match pushed with
  | Some u => isOnline u = online_step fsys (negb (o =? 0)) (cpu_name u)
              /\ negb (o' =? 0) = isOnline u
  | None => o' = o
  end.
Proof.
  unfold V2_0.read_cpu.
  destruct (V2_0.regex_search tmp) as [[[[[g1 g2] g3] g4] g5]|] eqn:E.
  2:{ intro H. injection H as <- <-. reflexivity. }
  destruct (regex_search_core_label _ _ _ _ _ _ E) as [_ Hs].
  unfold V2_0.stoi, V2_0.stoull. rewrite Hs.
  destruct (digits_value 0 g1 <=? INT_MAX); [|discriminate]. cbn [bind].
  repeat (destruct (_ <=? UINT64_MAX); [|discriminate]; cbn [bind]).
  destruct (V2_0.extract_int _ _) as [x fs'] eqn:Ex.
  intro H. injection H as <- <-. cbn [cpu_name isOnline append online_step].
  split; [|reflexivity].
  unfold ifstream_ctor, ifstream_open in Ex. cbn [rdbuf ifstream_default] in Ex.
  destruct (file fsys _) as [text|]; unfold V2_0.extract_int in Ex;
    cbn [ifstream_fail failbit ifstream_text rdbuf] in Ex.
  - destruct (V2_0.is_blank text).
    { injection Ex as <- _. reflexivity. }
    destruct (scan_integer text) as [[[neg v] rest]|].
    + unfold INT_MIN, INT_MAX in Ex.
      destruct ((if neg then - v else v) <? -2147483648) eqn:E1.
      { injection Ex as <- _. apply Z.ltb_lt in E1.
        destruct (Z.eqb_spec v 0); [destruct neg; lia|reflexivity]. }
      destruct (2147483647 <? (if neg then - v else v)) eqn:E2.
      { injection Ex as <- _. apply Z.ltb_lt in E2.
        destruct (Z.eqb_spec v 0); [destruct neg; lia|reflexivity]. }
      injection Ex as <- _.
      destruct (Z.eqb_spec v 0), (Z.eqb_spec (if neg then - v else v) 0);
        try reflexivity; destruct neg; lia.
    + injection Ex as <- _. reflexivity.
  - injection Ex as <- _. now destruct (digits_value 0 g1 =? 0).
Qed.

Lemma read_cpus_2_0_online (fsys : filesystem) (lines : list string) :
  forall o cpuUsages l,
  V2_0.read_cpus fsys lines o cpuUsages = Returned l ->
  exists pushed,
    l = (cpuUsages ++ pushed)%list
    /\ map isOnline pushed
       = online_flags fsys (negb (o =? 0)) (map cpu_name pushed).
Proof.
  induction lines as [|tmp lines IH]; intros o acc l; cbn [V2_0.read_cpus].
  - intro H. injection H as <-. exists []. now rewrite app_nil_r.
  - destruct (V2_0.read_cpu fsys tmp o) as [[o' [u|]]|f] eqn:Er; cbn [bind];
      [| |discriminate]; intro H; apply IH in H as [pushed [-> Hm]];
      apply read_cpu_2_0_online in Er.
    + destruct Er as [Hu Ho]. exists (u :: pushed).
      rewrite <- app_assoc. split; [reflexivity|].
      cbn [map online_flags]. rewrite <- Hu. f_equal.
      rewrite <- Ho. exact Hm.
    + subst o'. now exists pushed.
Qed.

(** X20: the online flags of the usages the V2.0 service returns are read
    off the online files of their cores, in the order of the usages: a core
    is on line when its file starts with a number that is not zero, off
    line when the file starts with zero or with something that is no
    number, and, when the file does not open, on line for the core numbered
    zero only.  A file that is empty or holds white space only leaves the
    flag of the usage before, off line for the first one: [isOnline] lives
    outside the loop and nothing is stored into it.  None of this fails the
    call. *)
Theorem getCpuUsages_2_0_online (fsys : filesystem) (status : ThermalStatus)
  (cpuUsages : list CpuUsage) :
  V2_0.getCpuUsages fsys = Returned (status, cpuUsages) ->
  map isOnline cpuUsages = online_flags fsys false (map cpu_name cpuUsages).
Proof.
  destruct (file fsys V2_0.kCpuUsageFile) as [text|] eqn:Ef.
  - rewrite (getCpuUsages_2_0_opened fsys text Ef).
    destruct (V2_0.read_cpus fsys (V2_0.getlines text) 0 []) as [l|f] eqn:E;
      cbn [bind]; [|discriminate].
    intro H. injection H as _ <-.
    apply read_cpus_2_0_online in E as [pushed [-> Hm]]. exact Hm.
  - rewrite (getCpuUsages_2_0_unopened fsys Ef).
    intro H. injection H as _ <-. reflexivity.
Qed.

Lemma getCpuUsages_2_0_online_witness :
  let fsys :=
    mkFilesystem (fun _ => None)
      (lookup [("/proc/stat",
                "cpu0 10 1 5 300" ++ newline ++ "cpu1 20 3 15 300" ++ newline ++
                "cpu2 1 1 1 1" ++ newline ++ "cpu3 2 2 2 2" ++ newline ++
                "cpu4 3 3 3 3" ++ newline ++ "cpu5 4 4 4 4" ++ newline);
               ("/sys/devices/system/cpu/cpu1/online", "");
               ("/sys/devices/system/cpu/cpu2/online", "0" ++ newline);
               ("/sys/devices/system/cpu/cpu3/online", newline);
               ("/sys/devices/system/cpu/cpu4/online", "1" ++ newline);
               ("/sys/devices/system/cpu/cpu5/online", "on" ++ newline)]) in
  [true; true; false; false; true; false]
  = online_flags fsys false ["CPU0"; "CPU1"; "CPU2"; "CPU3"; "CPU4"; "CPU5"].
Proof.
  intro fsys.
  apply (getCpuUsages_2_0_online fsys (mkStatus SUCCESS "")
           [mkCpuUsage "CPU0" 16 316 true; mkCpuUsage "CPU1" 38 338 true;
            mkCpuUsage "CPU2" 3 4 false; mkCpuUsage "CPU3" 6 8 false;
            mkCpuUsage "CPU4" 9 12 true; mkCpuUsage "CPU5" 12 16 false]).
  reflexivity.
Defined.
